(** * WhatsApp bot webhook (Twilio + OpenAI + Google Sheets)

    A shallow embedding of the two copies of the webhook that the
    repository holds, [main.py] and [codigo_comentado.py], and the
    properties of the command router, the reply composers, the
    spreadsheet logger and the credential resolver.

    Layout:
    - [Py]: the pieces of the Python runtime the handlers use
      (code-point strings, [strip], [lower], [startswith], dict [get]);
    - [Effects]: the outside world (completion provider, Google
      credentials, spreadsheet, clock) as oracles, and a state-and-exception
      monad that records what the handler did;
    - [Twiml], [Flask]: the reply envelope and the HTTP response;
    - [Main] and [CodigoComentado]: the two source files, function by
      function;
    - the theorems. *)

From Stdlib Require Import List PeanoNat NArith Bool Lia String Ascii QArith.
Import ListNotations.
Local Open Scope N_scope.
Local Open Scope list_scope.

(* ===================================================================== *)
(** * The Python runtime *)
(* ===================================================================== *)

Module Py.

(** A Python [str] is a sequence of Unicode code points. *)
Definition codepoint := N.
Definition str := list codepoint.

(** Source literals are written as UTF-8 text and decoded to code points,
    so that a literal of the Python file reads the same here. *)
Fixpoint utf8_decode (bs : list N) : str :=
  match bs with
  | [] => []
  | b0 :: r0 =>
    if b0 <? 128 then b0 :: utf8_decode r0
    else if b0 <? 224 then
      match r0 with
      | b1 :: r1 => ((b0 mod 32) * 64 + b1 mod 64) :: utf8_decode r1
      | _ => []
      end
    else if b0 <? 240 then
      match r0 with
      | b1 :: b2 :: r2 =>
        ((b0 mod 16) * 4096 + (b1 mod 64) * 64 + b2 mod 64) :: utf8_decode r2
      | _ => []
      end
    else
      match r0 with
      | b1 :: b2 :: b3 :: r3 =>
        ((b0 mod 8) * 262144 + (b1 mod 64) * 4096 + (b2 mod 64) * 64 + b3 mod 64)
          :: utf8_decode r3
      | _ => []
      end
  end.

Definition py (s : string) : str :=
  utf8_decode (map N_of_ascii (list_ascii_of_string s)).

(** Characters that a string literal of this file cannot hold. *)
Definition NL : str := [10].
Definition DQUOTE : str := [34].

(** [a == b] on strings. *)
Fixpoint str_eqb (a b : str) : bool :=
  match a, b with
  | [], [] => true
  | x :: a', y :: b' => (x =? y) && str_eqb a' b'
  | _, _ => false
  end.

(** [x in {a, b, ...}] for a set literal of strings. *)
Definition in_set (x : str) (s : list str) : bool := existsb (str_eqb x) s.

(** Truthiness of a string and [x or d]. *)
Definition truthy (s : str) : bool :=
  match s with [] => false | _ => true end.

Definition or_else (s d : str) : str := if truthy s then s else d.

(** [x or d] where [x] may be [None]. *)
Definition opt_or (x : option str) (d : str) : str :=
  match x with
  | Some s => or_else s d
  | None => d
  end.

(** [str.isspace] on one code point: the ASCII table of CPython
    ([_Py_ascii_whitespace]) and [_PyUnicode_IsWhitespace] above it. *)
Definition isspace (c : codepoint) : bool :=
  ((9 <=? c) && (c <=? 13)) || ((28 <=? c) && (c <=? 32))
  || (c =? 133) || (c =? 160) || (c =? 5760)
  || ((8192 <=? c) && (c <=? 8202))
  || (c =? 8232) || (c =? 8233) || (c =? 8239) || (c =? 8287) || (c =? 12288).

(** [s.strip()] with no argument: whitespace removed at both ends. *)
Fixpoint lstrip (s : str) : str :=
  match s with
  | [] => []
  | c :: r => if isspace c then lstrip r else s
  end.

Definition rstrip (s : str) : str := rev (lstrip (rev s)).

Definition strip (s : str) : str := rstrip (lstrip s).

(** [s.lower()].  CPython maps every code point on its own
    ([lower_ucs4]); an ASCII code point is mapped by the ASCII rule, and
    a code point from 128 on by the interpreter's Unicode database, which
    may give several code points and looks at the neighbours of a capital
    sigma.  The database is not part of the repository: it is the
    parameter [db], asked for the mapping of the code point at index [i]
    of the whole string. *)
Definition unicode_db := str -> nat -> str.

Definition ascii_lower (c : codepoint) : codepoint :=
  if (65 <=? c) && (c <=? 90) then c + 32 else c.

Fixpoint lower_from (db : unicode_db) (whole : str) (i : nat) (s : str) : str :=
  match s with
  | [] => []
  | c :: r =>
    (if c <? 128 then [ascii_lower c] else db whole i)
      ++ lower_from db whole (S i) r
  end.

Definition lower (db : unicode_db) (s : str) : str := lower_from db s 0 s.

(** [s.startswith(p)]. *)
Fixpoint startswith (s p : str) {struct p} : bool :=
  match p, s with
  | [], _ => true
  | x :: p', y :: s' => (x =? y) && startswith s' p'
  | _ :: _, [] => false
  end.

(** [s[n:]] for [0 <= n]. *)
Definition slice_from (n : nat) (s : str) : str := skipn n s.

(** [len(s)]. *)
Definition len (s : str) : nat := List.length s.

(** A form or query-string mapping ([request.form], [request.args],
    [os.environ]): keys in arrival order, [get] answers the first value. *)
Definition mapping := list (str * str).

Fixpoint get (m : mapping) (k : str) : option str :=
  match m with
  | [] => None
  | (k', v) :: r => if str_eqb k' k then Some v else get r k
  end.

Definition get_default (m : mapping) (k d : str) : str :=
  match get m k with
  | Some v => v
  | None => d
  end.

(** [x == "lit"] where [x] may be [None]. *)
Definition opt_eqb (x : option str) (lit : str) : bool :=
  match x with
  | Some s => str_eqb s lit
  | None => false
  end.

(** POSIX [os.path.join(a, b)]. *)
Definition path_join (a b : str) : str :=
  if startswith b (py "/") then b
  else match rev a with
       | [] => b
       | c :: _ => if c =? 47 then a ++ b else a ++ py "/" ++ b
       end.

End Py.
Import Py.

(* ===================================================================== *)
(** * The outside world and the handler's effects *)
(* ===================================================================== *)

Module Effects.

(** An exception object: [exc_str e] is [str(e)], the text an f-string
    prints for it.  Every failure below is an instance of [Exception],
    the class the handlers catch. *)
Record Exception := { exc_str : str }.

Inductive outcome (A : Type) : Type :=
| Returned (a : A)
| Raised (e : Exception).
Arguments Returned {A} a.
Arguments Raised {A} e.

(** [client.chat.completions.create(model=, messages=, temperature=)]. *)
Record ChatMessage := { role : str; content : str }.

Record ChatRequest := {
  model : str;
  messages : list ChatMessage;
  temperature : Q
}.

(** What the composers read of a completion:
    [r.choices[i].message.content], a string or [None]. *)
Record ChatCompletion := { choices : list (option str) }.

(** Google credentials, the gspread client, spreadsheets and worksheets. *)
Record Credentials := { cred_id : N }.

Record Client := { auth : Credentials }.

Record Worksheet := { ws_title : str; ws_id : N }.

Record Spreadsheet := {
  sh_title : str;
  sheet1 : outcome Worksheet;
  worksheet : str -> outcome Worksheet
}.

(** One row of the sheet. *)
Definition row := list str.

(** The environment of one request: process configuration, the
    interpreter's Unicode database, and what each outside call answers
    when it is made. *)
Record Env := {
  environ : mapping;
  module_dir : str;
  unicode : unicode_db;
  strftime : str -> str;
  chat_completions_create : ChatRequest -> outcome ChatCompletion;
  google_auth_default : list str -> outcome (Credentials * option str);
  from_service_account_file : str -> list str -> outcome Credentials;
  gspread_authorize : Credentials -> outcome Client;
  open_by_key : Client -> str -> outcome Spreadsheet;
  append_row_answer : Worksheet -> row -> str -> outcome unit
}.

(** What the handler did, in order: the calls that leave the process,
    and the entries into the logger and the two composers with the
    arguments they were given.  Calls to [logging] and [print] write to
    the process log only; they decide nothing and are left out. *)
Inductive Event : Type :=
| CallChat (r : ChatRequest)
| CallAuthDefault (scopes : list str)
| CallServiceAccountFile (path : str) (scopes : list str)
| CallOpenByKey (key : str)
| CallAppendRow (ws : Worksheet) (r : row) (value_input_option : str)
| EnterLogMessage (sender body reply : str)
| EnterAiCode (text : str)
| EnterAiReply (text : str).

(** The state a request changes: the rows the spreadsheet holds and the
    record of calls. *)
Record World := {
  rows : list (Worksheet * row);
  trace : list Event
}.

Definition emit (ev : Event) (w : World) : World :=
  {| rows := rows w; trace := trace w ++ [ev] |}.

Definition store (ws : Worksheet) (r : row) (w : World) : World :=
  {| rows := rows w ++ [(ws, r)]; trace := trace w |}.

(** State and exceptions. *)
Definition M (A : Type) : Type := World -> outcome A * World.

Definition ret {A} (a : A) : M A := fun w => (Returned a, w).

Definition raise {A} (e : Exception) : M A := fun w => (Raised e, w).

Definition bind {A B} (c : M A) (k : A -> M B) : M B :=
  fun w =>
    match c w with
    | (Returned a, w') => k a w'
    | (Raised e, w') => (Raised e, w')
    end.

(** [try: body except Exception as e: handler]. *)
Definition try_except {A} (body : M A) (handler : Exception -> M A) : M A :=
  fun w =>
    match body w with
    | (Returned a, w') => (Returned a, w')
    | (Raised e, w') => handler e w'
    end.

(** The body of a function, with its entry recorded. *)
Definition enter {A} (ev : Event) (body : M A) : M A :=
  fun w => body (emit ev w).

(** A value that may be an exception, entering the monad. *)
Definition lift {A} (o : outcome A) : M A := fun w => (o, w).

Definition call {A} (ev : Event) (o : outcome A) : M A :=
  fun w => (o, emit ev w).

Declare Scope py_scope.
Delimit Scope py_scope with py.
Notation "x <- c ;; k" := (bind c (fun x => k))
  (at level 61, c at next level, right associativity) : py_scope.
Notation "c ;;; k" := (bind c (fun _ => k))
  (at level 61, right associativity) : py_scope.

(** [l[0]]. *)
Definition index0 {A} (l : list A) : outcome A :=
  match l with
  | x :: _ => Returned x
  | [] => Raised {| exc_str := py "list index out of range" |}
  end.

(** [x.strip()] where [x] may be [None]. *)
Definition strip_attr (x : option str) : outcome str :=
  match x with
  | Some s => Returned (strip s)
  | None =>
    Raised {| exc_str := py "'NoneType' object has no attribute 'strip'" |}
  end.

(** Outside calls as actions. *)
Definition create (env : Env) (r : ChatRequest) : M ChatCompletion :=
  call (CallChat r) (chat_completions_create env r).

Definition auth_default (env : Env) (scopes : list str)
  : M (Credentials * option str) :=
  call (CallAuthDefault scopes) (google_auth_default env scopes).

Definition service_account_file (env : Env) (path : str) (scopes : list str)
  : M Credentials :=
  call (CallServiceAccountFile path scopes)
       (from_service_account_file env path scopes).

Definition authorize (env : Env) (creds : Credentials) : M Client :=
  lift (gspread_authorize env creds).

Definition client_open_by_key (env : Env) (c : Client) (key : str)
  : M Spreadsheet :=
  call (CallOpenByKey key) (open_by_key env c key).

(** [ws.append_row(row, value_input_option=opt)]: the row is in the sheet
    when the call returns, and not when it raises. *)
Definition append_row (env : Env) (ws : Worksheet) (r : row) (opt : str)
  : M unit :=
  fun w =>
    match append_row_answer env ws r opt with
    | Returned tt => (Returned tt, store ws r (emit (CallAppendRow ws r opt) w))
    | Raised e => (Raised e, emit (CallAppendRow ws r opt) w)
    end.

Definition time_strftime (env : Env) (fmt : str) : M str :=
  ret (strftime env fmt).

Definition getenv (env : Env) (k d : str) : str :=
  get_default (environ env) k d.

End Effects.
Import Effects.
Local Open Scope py_scope.

(* ===================================================================== *)
(** * Flask responses and the TwiML envelope *)
(* ===================================================================== *)

Module Flask.

Record Request := {
  method : str;
  args : mapping;
  form : mapping
}.

Record Response := {
  data : str;
  status : N;
  headers : mapping
}.

(** [make_response(body, status)]: Flask's default content type. *)
Definition make_response (body : str) (code : N) : Response :=
  {| data := body; status := code;
     headers := [(py "Content-Type", py "text/html; charset=utf-8")] |}.

(** [resp.headers[k] = v]. *)
Fixpoint set_item (m : mapping) (k v : str) : mapping :=
  match m with
  | [] => [(k, v)]
  | (k', v') :: r =>
    if str_eqb k' k then (k, v) :: r else (k', v') :: set_item r k v
  end.

Definition set_header (r : Response) (k v : str) : Response :=
  {| data := data r; status := status r; headers := set_item (headers r) k v |}.

End Flask.
Import Flask.

Module Twiml.

(** [MessagingResponse()] with the [<Message>] verbs added so far. *)
Record MessagingResponse := { verbs : list str }.

Definition new : MessagingResponse := {| verbs := [] |}.

(** [tw.message(body)]. *)
Definition message (tw : MessagingResponse) (body : str) : MessagingResponse :=
  {| verbs := verbs tw ++ [body] |}.

(** Element text as the XML writer escapes it. *)
Definition escape_cdata (s : str) : str :=
  flat_map (fun c =>
    if c =? 38 then py "&amp;"
    else if c =? 60 then py "&lt;"
    else if c =? 62 then py "&gt;"
    else [c]) s.

(** One verb; an element without text is written in the short form. *)
Definition message_xml (body : str) : str :=
  match body with
  | [] => py "<Message />"
  | _ => py "<Message>" ++ escape_cdata body ++ py "</Message>"
  end.

Definition response_xml (tw : MessagingResponse) : str :=
  match verbs tw with
  | [] => py "<Response />"
  | vs => py "<Response>" ++ flat_map message_xml vs ++ py "</Response>"
  end.

(** [str(tw)]: the XML declaration and the document. *)
Definition to_str (tw : MessagingResponse) : str :=
  py "<?xml version=" ++ DQUOTE ++ py "1.0" ++ DQUOTE
     ++ py " encoding=" ++ DQUOTE ++ py "UTF-8" ++ DQUOTE ++ py "?>"
     ++ response_xml tw.

End Twiml.

(* ===================================================================== *)
(** * main.py *)
(* ===================================================================== *)

Module Main.

Definition OPENAI_MODEL (env : Env) : str :=
  getenv env (py "OPENAI_MODEL") (py "gpt-4o-mini").

Definition SYSTEM_PROMPT : str :=
  py "Eres Asistente Zen, un ayudante técnico amable y directo. Responde en español, "
  ++ py "concretamente y en un máximo de 5-8 líneas salvo que te pidan más.".

Definition SHEETS_CREDS_FILE : str := py "service_account.json".

Definition SHEET_ID (env : Env) : str := getenv env (py "SHEET_ID") (py "").

Definition scopes : list str :=
  [ py "https://www.googleapis.com/auth/spreadsheets";
    py "https://www.googleapis.com/auth/drive" ].

(** [_get_google_creds]: ADC first, the JSON keyfile second; the second
    failure is raised again. *)
Definition _get_google_creds (env : Env) : M Credentials :=
  try_except
    (cp <- auth_default env scopes ;;
     ret (fst cp))
    (fun _ =>
       try_except
         (let creds_path := path_join (module_dir env) SHEETS_CREDS_FILE in
          creds <- service_account_file env creds_path scopes ;;
          ret creds)
         (fun e => raise e)).

Definition _get_sheet (env : Env) : M Worksheet :=
  if negb (truthy (SHEET_ID env)) then
    raise {| exc_str := py "SHEET_ID vacío" |}
  else
    creds <- _get_google_creds env ;;
    client <- authorize env creds ;;
    sh <- client_open_by_key env client (SHEET_ID env) ;;
    ws <- lift (sheet1 sh) ;;
    ret ws.

Definition log_message (env : Env) (sender body reply : str) : M unit :=
  enter (EnterLogMessage sender body reply)
    (try_except
       (ws <- _get_sheet env ;;
        ts <- time_strftime env (py "%Y-%m-%d %H:%M:%S") ;;
        append_row env ws
          [ts; or_else sender (py "-"); or_else body (py ""); or_else reply (py "")]
          (py "RAW"))
       (fun _ => ret tt)).

Definition code_system_prompt : str :=
  py "Eres un generador de snippets de código. "
  ++ py "El usuario puede pedir código en Python, Bash, JS, etc. "
  ++ py "Responde SOLO con un bloque de código válido, sin explicaciones.".

(** The request [_ai_code] sends. *)
Definition code_request (env : Env) (text : str) : ChatRequest :=
  {| model := OPENAI_MODEL env;
     messages :=
       [ {| role := py "system"; content := code_system_prompt |};
         {| role := py "user"; content := text |} ];
     temperature := 0.2 |}.

Definition _ai_code (env : Env) (text : str) : M str :=
  enter (EnterAiCode text) (try_except
    (r <- create env (code_request env text) ;;
     c <- lift (index0 (choices r)) ;;
     lift (strip_attr c))
    (fun e => ret (py "Ups, no pude generar el código: " ++ exc_str e))).

(** The request [_ai_reply] sends. *)
Definition reply_request (env : Env) (text : str) : ChatRequest :=
  {| model := OPENAI_MODEL env;
     messages :=
       [ {| role := py "system"; content := SYSTEM_PROMPT |};
         {| role := py "user";
            content := or_else text (py "(mensaje vacío)") |} ];
     temperature := 0.4 |}.

Definition _ai_reply (env : Env) (text : str) : M str :=
  enter (EnterAiReply text) (try_except
    (r <- create env (reply_request env text) ;;
     c <- lift (index0 (choices r)) ;;
     ret (strip (opt_or c (py "No pude generar respuesta."))))
    (fun e => ret (py "Ups, hubo un error consultando a IA: " ++ exc_str e))).

Definition help_text : str :=
  py "Comandos: /ping, /help, /code <lenguaje> <instrucción>".

Definition empty_text : str :=
  py "Hola! Recibí tu mensaje vacío. Probá enviarme algo de texto 🙂".

Definition webhook (env : Env) (request : Request) : M Response :=
  if negb (str_eqb (method request) (py "POST")) then
    if opt_eqb (get (args request) (py "debug")) (py "1") then
      try_except
        (ws <- _get_sheet env ;;
         ts <- time_strftime env (py "%Y-%m-%d %H:%M:%S") ;;
         append_row env ws
           [ts; py "debug"; py "GET /?debug=1"; py "fila de test"] (py "RAW") ;;;
         ret (make_response (py "debug wrote row") 200))
        (fun e => ret (make_response (py "debug error: " ++ exc_str e) 500))
    else ret (make_response (py "ok") 200)
  else
    let body_orig := strip (opt_or (get (form request) (py "Body")) (py "")) in
    let t := lower (unicode env) body_orig in
    reply <-
      (if in_set t [py "ping"; py "/ping"] then
         ret (py "pong")
       else if in_set t [py "help"; py "/help"; py "ayuda"; py "/ayuda"] then
         ret help_text
       else if startswith t (py "/code") then
         let prompt := strip (slice_from (len (py "/code")) body_orig) in
         _ai_code env (or_else prompt (py "python ejemplo básico"))
       else if negb (truthy body_orig) then
         ret empty_text
       else
         _ai_reply env body_orig) ;;
    let sender := get_default (form request) (py "From") (py "desconocido") in
    log_message env sender body_orig reply ;;;
    let tw := Twiml.message Twiml.new (or_else reply (py "")) in
    let resp := make_response (Twiml.to_str tw) 200 in
    ret (set_header resp (py "Content-Type") (py "application/xml")).

End Main.

(* ===================================================================== *)
(** * codigo_comentado.py *)
(* ===================================================================== *)

Module CodigoComentado.

Definition MODEL (env : Env) : str :=
  getenv env (py "OPENAI_MODEL") (py "gpt-4o-mini").

Definition SHEET_ID (env : Env) : str := getenv env (py "SHEET_ID") (py "").

Definition SHEETS_CREDS_FILE (env : Env) : str :=
  getenv env (py "SHEETS_CREDS_FILE") (py "service_account.json").

Definition SHEET_TAB (env : Env) : str := getenv env (py "SHEET_TAB") (py "").

Definition SYSTEM_PROMPT : str :=
  py "Eres Asistente Zen, un ayudante técnico amable y directo." ++ NL
  ++ py "Responde en español, con precisión y en no más de 5–8 líneas salvo que te pidan más." ++ NL
  ++ py "Cuando no tengas certeza, indícalo y sugiere una verificación simple." ++ NL.

Definition reply_fallback : str :=
  py "No pude responder con IA ahora. Intenta de nuevo en unos segundos.".

(** The request [_ai_reply] sends. *)
Definition reply_request (env : Env) (text : str) : ChatRequest :=
  {| model := MODEL env;
     messages :=
       [ {| role := py "system"; content := SYSTEM_PROMPT |};
         {| role := py "user";
            content := or_else text (py "(mensaje vacío)") |} ];
     temperature := 0.4 |}.

Definition _ai_reply (env : Env) (text : str) : M str :=
  enter (EnterAiReply text) (try_except
    (r <- create env (reply_request env text) ;;
     c <- lift (index0 (choices r)) ;;
     ret (strip (opt_or c (py ""))))
    (fun _ => ret reply_fallback)).

Definition code_system_prompt : str :=
  py "Eres un generador de snippets de código." ++ NL
  ++ py "El usuario puede pedir código en Python, Bash, JavaScript, Swift, etc." ++ NL
  ++ py "Responde SOLO con un bloque de código dentro de triple backticks." ++ NL
  ++ py "No incluyas explicaciones ni texto fuera del bloque de código." ++ NL.

Definition code_default : str := py "python: imprimir Hola Mundo".

Definition code_fallback : str :=
  py "```txt" ++ NL
  ++ py "No pude generar el código ahora. Reintenta en unos segundos." ++ NL
  ++ py "```".

(** The request [_ai_code] sends. *)
Definition code_request (env : Env) (user_prompt : str) : ChatRequest :=
  {| model := MODEL env;
     messages :=
       [ {| role := py "system"; content := code_system_prompt |};
         {| role := py "user";
            content := or_else user_prompt code_default |} ];
     temperature := 0.2 |}.

Definition _ai_code (env : Env) (user_prompt : str) : M str :=
  enter (EnterAiCode user_prompt) (try_except
    (r <- create env (code_request env user_prompt) ;;
     c <- lift (index0 (choices r)) ;;
     ret (strip (opt_or c (py ""))))
    (fun _ => ret code_fallback)).

Definition scopes : list str :=
  [ py "https://www.googleapis.com/auth/spreadsheets";
    py "https://www.googleapis.com/auth/drive" ].

Definition _get_google_creds (env : Env) : M Credentials :=
  try_except
    (cp <- auth_default env scopes ;;
     ret (fst cp))
    (fun _ =>
       try_except
         (let creds_path :=
            path_join (module_dir env) (SHEETS_CREDS_FILE env) in
          service_account_file env creds_path scopes)
         (fun e => raise e)).

Definition _get_sheet (env : Env) : M Worksheet :=
  if negb (truthy (SHEET_ID env)) then
    raise {| exc_str :=
               py "SHEET_ID vacío. Define la variable de entorno SHEET_ID." |}
  else
    creds <- _get_google_creds env ;;
    client <- authorize env creds ;;
    sh <- client_open_by_key env client (SHEET_ID env) ;;
    ws <- lift (if truthy (SHEET_TAB env)
                then worksheet sh (SHEET_TAB env)
                else sheet1 sh) ;;
    ret ws.

Definition log_message (env : Env) (sender body reply : str) : M unit :=
  enter (EnterLogMessage sender body reply)
    (try_except
       (ws <- _get_sheet env ;;
        ts <- time_strftime env (py "%Y-%m-%d %H:%M:%S") ;;
        append_row env ws
          [ts; or_else sender (py "-"); or_else body (py ""); or_else reply (py "")]
          (py "RAW"))
       (fun _ => ret tt)).

Definition help_text : str :=
  py "Comandos:" ++ NL
  ++ py "• /ping — prueba rápida" ++ NL
  ++ py "• /code <lenguaje> <instrucción> — responde SOLO con código" ++ NL
  ++ py "• /logtest — prueba de escritura en Sheets" ++ NL.

Definition logtest_reply : str :=
  py "Log test ✅ (se intentó escribir en Sheets).".

Definition empty_text : str :=
  py "Hola! Recibí tu mensaje vacío. Probá enviarme algo de texto 🙂".

Definition webhook (env : Env) (request : Request) : M Response :=
  if negb (str_eqb (method request) (py "POST")) then
    if opt_eqb (get (args request) (py "debug")) (py "1") then
      try_except
        (ws <- _get_sheet env ;;
         ts <- time_strftime env (py "%Y-%m-%d %H:%M:%S") ;;
         append_row env ws
           [ts; py "debug"; py "GET ?debug=1"; py "fila de test"] (py "RAW") ;;;
         ret (make_response (py "debug wrote row") 200))
        (fun e => ret (make_response (py "debug error: " ++ exc_str e) 500))
    else ret (make_response (py "ok") 200)
  else
    let body_orig := strip (opt_or (get (form request) (py "Body")) (py "")) in
    let sender := get_default (form request) (py "From") (py "desconocido") in
    let t := lower (unicode env) body_orig in
    reply <-
      (if in_set t [py "ping"; py "/ping"] then
         ret (py "pong")
       else if in_set t [py "help"; py "/help"; py "ayuda"; py "/ayuda"] then
         ret help_text
       else if str_eqb t (py "/logtest") then
         log_message env sender (py "[/logtest]") (py "OK log test") ;;;
         ret logtest_reply
       else if startswith t (py "/code") then
         let prompt := strip (slice_from (len (py "/code")) body_orig) in
         _ai_code env (or_else prompt (py "python: imprimir Hola Mundo"))
       else if negb (truthy body_orig) then
         ret empty_text
       else
         _ai_reply env body_orig) ;;
    (if negb (str_eqb t (py "/logtest"))
     then log_message env sender body_orig reply
     else ret tt) ;;;
    let tw := Twiml.message Twiml.new (or_else reply (py "")) in
    let resp := make_response (Twiml.to_str tw) 200 in
    ret (set_header resp (py "Content-Type") (py "application/xml")).

End CodigoComentado.

(* ===================================================================== *)
(** * Observations on a run *)
(* ===================================================================== *)

Module Observe.

(** The world before a request. *)
Definition W0 : World := {| rows := []; trace := [] |}.

(** [after w d]: the world [w] followed by what a run added. *)
Definition after (w d : World) : World :=
  {| rows := rows w ++ rows d; trace := trace w ++ trace d |}.

(** An action whose result and additions do not depend on the world it
    starts from. *)
Definition framed {A} (c : M A) : Prop :=
  forall w, c w = (fst (c W0), after w (snd (c W0))).

(** Invocations of the logger, with [(sender, body, reply)]. *)
Definition logger_calls (tr : list Event) : list (str * str * str) :=
  flat_map (fun ev =>
    match ev with
    | EnterLogMessage s b r => [(s, b, r)]
    | _ => []
    end) tr.

(** Texts handed to the code composer. *)
Definition code_calls (tr : list Event) : list str :=
  flat_map (fun ev =>
    match ev with
    | EnterAiCode x => [x]
    | _ => []
    end) tr.

(** Texts handed to the conversational composer. *)
Definition reply_calls (tr : list Event) : list str :=
  flat_map (fun ev =>
    match ev with
    | EnterAiReply x => [x]
    | _ => []
    end) tr.

(** Paths of the keyfiles read. *)
Definition keyfile_reads (tr : list Event) : list str :=
  flat_map (fun ev =>
    match ev with
    | CallServiceAccountFile p _ => [p]
    | _ => []
    end) tr.

(** Whether the store takes a row: the worksheet it lands in, or the
    exception of the first step that fails, opening the sheet with
    [get_sheet] or appending. *)
Definition store_outcome (get_sheet : Env -> M Worksheet) (env : Env) (r : row)
  : outcome Worksheet :=
  match fst (get_sheet env W0) with
  | Returned ws =>
    match append_row_answer env ws r (py "RAW") with
    | Returned _ => Returned ws
    | Raised e => Raised e
    end
  | Raised e => Raised e
  end.

Definition stored (o : outcome Worksheet) (r : row) : list (Worksheet * row) :=
  match o with
  | Returned ws => [(ws, r)]
  | Raised _ => []
  end.

(** The row the logger writes for [(sender, body, reply)]. *)
Definition audit_row (env : Env) (sender body reply : str) : row :=
  [ strftime env (py "%Y-%m-%d %H:%M:%S");
    or_else sender (py "-"); or_else body (py ""); or_else reply (py "") ].

(** A stretch of the trace with no entry into the logger or a composer. *)
Definition quiet (tr : list Event) : Prop :=
  logger_calls tr = [] /\ code_calls tr = [] /\ reply_calls tr = [].

(** [s] occurs inside [big]. *)
Definition contains (big s : str) : Prop :=
  exists pre post, big = pre ++ s ++ post.

(** The response of a POST that replies [reply]. *)
Definition twiml_response (reply : str) : Response :=
  {| data := Twiml.to_str (Twiml.message Twiml.new reply);
     status := 200;
     headers := [(py "Content-Type", py "application/xml")] |}.

(** The body and the sender as the handler reads them from the form. *)
Definition body_of (request : Request) : str :=
  strip (opt_or (get (form request) (py "Body")) (py "")).

Definition raw_body_of (request : Request) : str :=
  opt_or (get (form request) (py "Body")) (py "").

Definition sender_of (request : Request) : str :=
  get_default (form request) (py "From") (py "desconocido").

Definition normalized (env : Env) (request : Request) : str :=
  lower (unicode env) (body_of request).

Definition is_post (request : Request) : bool :=
  str_eqb (method request) (py "POST").

Definition debug_flag (request : Request) : bool :=
  opt_eqb (get (args request) (py "debug")) (py "1").

End Observe.
Import Observe.

(* ===================================================================== *)
(** * Sample environments and requests *)
(* ===================================================================== *)

Module Sample.

(** A Unicode database that leaves every code point as it is; the sample
    requests are ASCII, which never reaches it. *)
Definition db0 : unicode_db :=
  fun s i => match nth_error s i with Some c => [c] | None => [] end.

Definition ws0 : Worksheet := {| ws_title := py "Hoja 1"; ws_id := 0 |}.

Definition sh0 : Spreadsheet :=
  {| sh_title := py "bot"; sheet1 := Returned ws0;
     worksheet := fun _ => Returned ws0 |}.

Definition now : str := py "2025-03-01 10:00:00".

Definition mk_env (vars : mapping)
    (chat : ChatRequest -> outcome ChatCompletion)
    (adc : outcome (Credentials * option str))
    (keyfile : outcome Credentials)
    (append : outcome unit) : Env :=
  {| environ := vars;
     module_dir := py "/workspace";
     unicode := db0;
     strftime := fun _ => now;
     chat_completions_create := chat;
     google_auth_default := fun _ => adc;
     from_service_account_file := fun _ _ => keyfile;
     gspread_authorize := fun c => Returned {| auth := c |};
     open_by_key := fun _ _ => Returned sh0;
     append_row_answer := fun _ _ _ => append |}.

Definition boom (msg : string) : Exception := {| exc_str := py msg |}.

Definition chat_ok : ChatRequest -> outcome ChatCompletion :=
  fun _ => Returned {| choices := [Some (py " Claro. ")] |}.

Definition chat_down (msg : string) : ChatRequest -> outcome ChatCompletion :=
  fun _ => Raised (boom msg).

Definition adc_ok : outcome (Credentials * option str) :=
  Returned ({| cred_id := 1 |}, Some (py "whatsapp-bot-emanuel")).

Definition key_ok : outcome Credentials := Returned {| cred_id := 2 |}.

Definition with_sheet : mapping := [(py "SHEET_ID", py "1R")].

(** Everything reachable. *)
Definition env_up : Env := mk_env with_sheet chat_ok adc_ok key_ok (Returned tt).

(** No spreadsheet identifier configured. *)
Definition env_no_sheet : Env := mk_env [] chat_ok adc_ok key_ok (Returned tt).

(** No ambient identity, a keyfile that loads. *)
Definition env_keyfile : Env :=
  mk_env with_sheet chat_ok (Raised (boom "no ADC")) key_ok (Returned tt).

(** Neither credential source works. *)
Definition env_no_creds : Env :=
  mk_env with_sheet chat_ok (Raised (boom "no ADC"))
         (Raised (boom "no such file")) (Returned tt).

(** The spreadsheet refuses the append. *)
Definition env_append_fails : Env :=
  mk_env with_sheet chat_ok adc_ok key_ok (Raised (boom "quota")).

(** The completion provider is down. *)
Definition env_chat_down (msg : string) : Env :=
  mk_env with_sheet (chat_down msg) adc_ok key_ok (Returned tt).

Definition post (body sender : string) : Request :=
  {| method := py "POST"; args := [];
     form := [(py "Body", py body); (py "From", py sender)] |}.

Definition post_anonymous (body : string) : Request :=
  {| method := py "POST"; args := []; form := [(py "Body", py body)] |}.

Definition get_request (query : mapping) : Request :=
  {| method := py "GET"; args := query; form := [] |}.

End Sample.

(* ===================================================================== *)
(** * test_sheet.py *)
(* ===================================================================== *)

Module TestSheet.

Definition SHEET_ID (env : Env) : str := getenv env (py "SHEET_ID") (py "TU_ID").

Definition CREDS : str := py "service_account.json".

Definition scopes : list str :=
  [ py "https://www.googleapis.com/auth/spreadsheets" ].

(** The script, top to bottom; nothing is caught, and the closing
    [print] is reached only when every step before it returned. *)
Definition script (env : Env) : M unit :=
  creds <- service_account_file env CREDS scopes ;;
  client <- authorize env creds ;;
  book <- client_open_by_key env client (SHEET_ID env) ;;
  sh <- lift (sheet1 book) ;;
  ts <- time_strftime env (py "%Y-%m-%d %H:%M:%S") ;;
  append_row env sh [ts; py "local-test"; py "hola"; py "respuesta"] (py "RAW").

End TestSheet.

(* ===================================================================== *)
(** * More observations: the calls that leave the process *)
(* ===================================================================== *)

Module Calls.

(** Requests sent to the completion provider. *)
Definition provider_calls (tr : list Event) : list ChatRequest :=
  flat_map (fun ev =>
    match ev with
    | CallChat r => [r]
    | _ => []
    end) tr.

(** Appends asked of the spreadsheet, with the value-input option. *)
Definition append_calls (tr : list Event) : list (Worksheet * row * str) :=
  flat_map (fun ev =>
    match ev with
    | CallAppendRow ws r opt => [(ws, r, opt)]
    | _ => []
    end) tr.

(** Ambient-identity lookups, with their scopes. *)
Definition adc_calls (tr : list Event) : list (list str) :=
  flat_map (fun ev =>
    match ev with
    | CallAuthDefault sc => [sc]
    | _ => []
    end) tr.

(** Spreadsheets opened, by key. *)
Definition open_calls (tr : list Event) : list str :=
  flat_map (fun ev =>
    match ev with
    | CallOpenByKey k => [k]
    | _ => []
    end) tr.

(** The steps that reach a sheet without writing to it. *)
Definition access_event (ev : Event) : bool :=
  match ev with
  | CallAuthDefault _ | CallServiceAccountFile _ _ | CallOpenByKey _ => true
  | _ => false
  end.

(** The content of the user message of a request. *)
Definition user_content (r : ChatRequest) : list str :=
  flat_map (fun m => if str_eqb (role m) (py "user") then [content m] else [])
           (messages r).

(** Code points below 128. *)
Definition is_ascii (s : str) : bool := forallb (fun c => c <? 128) s.

(** What one request may add: at most one provider request, at most one
    append, asked with the [RAW] option, and at most one row, of four
    columns. *)
Definition bounded (d : World) : Prop :=
  (List.length (provider_calls (trace d)) <= 1)%nat
  /\ (List.length (append_calls (trace d)) <= 1)%nat
  /\ Forall (fun c => snd c = py "RAW") (append_calls (trace d))
  /\ (List.length (rows d) <= 1)%nat
  /\ Forall (fun wr => List.length (snd wr) = 4%nat) (rows d).

End Calls.
Import Calls.

(* ===================================================================== *)
(** * Facts about the runtime *)
(* ===================================================================== *)

(** Literals stay folded in the proofs; a concrete run is evaluated as a
    whole. *)
Arguments py : simpl never.
Opaque py.

Section StrFacts.

Lemma str_eqb_refl (a : str) : str_eqb a a = true.
Proof.
  induction a as [|x a IH]; simpl; [reflexivity|].
  now rewrite N.eqb_refl.
Qed.

Lemma str_eqb_eq (a b : str) : str_eqb a b = true <-> a = b.
Proof.
  split.
  - revert b; induction a as [|x a IH]; intros [|y b]; simpl; try discriminate; auto.
    intros H; apply andb_true_iff in H as [Hx Hr].
    apply N.eqb_eq in Hx; subst; f_equal; auto.
  - intros ->; apply str_eqb_refl.
Qed.

Lemma str_eqb_neq (a b : str) : str_eqb a b = false <-> a <> b.
Proof.
  rewrite <- str_eqb_eq. destruct (str_eqb a b); split; congruence.
Qed.

Lemma startswith_app (s p : str) :
  startswith s p = true <-> exists r, s = p ++ r.
Proof.
  split.
  - revert s; induction p as [|x p IH]; intros s H.
    + exists s; reflexivity.
    + destruct s as [|y s]; simpl in H; [discriminate|].
      apply andb_true_iff in H as [Hx Hr]. apply N.eqb_eq in Hx; subst y.
      destruct (IH _ Hr) as [r ->]. exists r; reflexivity.
  - intros [r ->]. induction p as [|x p IH]; simpl; [reflexivity|].
    now rewrite N.eqb_refl.
Qed.

(** [lstrip] takes a whitespace prefix away and stops at the first code
    point that is not whitespace. *)
Lemma lstrip_split (s : str) :
  exists pre, s = pre ++ lstrip s /\ forallb isspace pre = true.
Proof.
  induction s as [|c s [pre [E F]]]; simpl.
  - exists []; auto.
  - destruct (isspace c) eqn:Hc.
    + exists (c :: pre); simpl; rewrite Hc, F; split; [now f_equal|reflexivity].
    + exists []; auto.
Qed.

Lemma lstrip_head (s : str) (c : codepoint) (r : str) :
  lstrip s = c :: r -> isspace c = false.
Proof.
  induction s as [|x s IH]; simpl; [discriminate|].
  destruct (isspace x) eqn:Hx; auto.
  intros E; injection E as -> _; exact Hx.
Qed.

Lemma lstrip_fixed (c : codepoint) (r : str) :
  isspace c = false -> lstrip (c :: r) = c :: r.
Proof. intros H; simpl; now rewrite H. Qed.

Lemma rstrip_split (s : str) :
  exists post, s = rstrip s ++ post /\ forallb isspace post = true.
Proof.
  unfold rstrip. destruct (lstrip_split (rev s)) as [pre [E F]].
  exists (rev pre). split.
  - rewrite <- rev_app_distr, <- E. symmetry; apply rev_involutive.
  - rewrite forallb_forall in *. intros x Hx. apply F. now apply in_rev.
Qed.

(** The last code point of a stripped string is not whitespace. *)
Lemma rstrip_last (s r : str) (c : codepoint) :
  rstrip s = r ++ [c] -> isspace c = false.
Proof.
  unfold rstrip. intros E.
  apply (f_equal (@rev _)) in E. rewrite rev_involutive, rev_app_distr in E.
  simpl in E. eapply lstrip_head; eassumption.
Qed.

Lemma rstrip_fixed (r : str) (c : codepoint) :
  isspace c = false -> rstrip (r ++ [c]) = r ++ [c].
Proof.
  intros H. unfold rstrip. rewrite rev_app_distr. simpl.
  rewrite H. change (c :: rev r) with (rev [c] ++ rev r).
  rewrite <- rev_app_distr. apply rev_involutive.
Qed.

(** [strip] returns the middle of the string: what it removes is
    whitespace at the two ends, and nothing inside is touched. *)
Lemma strip_split (s : str) :
  exists pre post,
    s = pre ++ strip s ++ post
    /\ forallb isspace pre = true /\ forallb isspace post = true.
Proof.
  unfold strip.
  destruct (lstrip_split s) as [pre [E F]].
  destruct (rstrip_split (lstrip s)) as [post [E' F']].
  exists pre, post. repeat split; auto.
  rewrite <- E'. exact E.
Qed.

Lemma strip_last (s r : str) (c : codepoint) :
  strip s = r ++ [c] -> isspace c = false.
Proof. unfold strip. apply rstrip_last. Qed.

(** A string with no whitespace at either end is left as it is. *)
Lemma strip_fixed (c : codepoint) (m : str) (d : codepoint) :
  isspace c = false -> isspace d = false ->
  strip (c :: m ++ [d]) = c :: m ++ [d].
Proof.
  intros Hc Hd. unfold strip. rewrite lstrip_fixed by assumption.
  apply (rstrip_fixed (c :: m)); assumption.
Qed.

Lemma strip_fixed1 (c : codepoint) :
  isspace c = false -> strip [c] = [c].
Proof.
  intros Hc. unfold strip. rewrite lstrip_fixed by assumption.
  apply (rstrip_fixed []); assumption.
Qed.

(** What follows a prefix of a stripped string, when it starts with a
    code point that is not whitespace, is itself stripped. *)
Lemma strip_suffix_fixed (s : str) (n : nat) (c : codepoint) (r : str) :
  skipn n (strip s) = c :: r -> isspace c = false ->
  strip (skipn n (strip s)) = skipn n (strip s).
Proof.
  intros E Hc. rewrite E.
  destruct (@exists_last _ (c :: r) ltac:(discriminate)) as [m [d Em]].
  assert (Hd : isspace d = false).
  { pose proof (firstn_skipn n (strip s)) as Hfs. rewrite E, Em in Hfs.
    rewrite app_assoc in Hfs. symmetry in Hfs.
    eapply strip_last; eassumption. }
  destruct m as [|c' m]; simpl in Em.
  - injection Em as -> ->. apply strip_fixed1; assumption.
  - injection Em as -> ->. apply strip_fixed; assumption.
Qed.

End StrFacts.

(* ===================================================================== *)
(** * Framing: a run adds to the world and never reads it *)
(* ===================================================================== *)

Section Framing.

Lemma after_W0_l (w : World) : after W0 w = w.
Proof. destruct w; reflexivity. Qed.

Lemma after_W0_r (w : World) : after w W0 = w.
Proof. destruct w; unfold after; simpl; now rewrite !app_nil_r. Qed.

Lemma after_assoc (a b c : World) : after a (after b c) = after (after a b) c.
Proof. unfold after; simpl; now rewrite !app_assoc. Qed.

Lemma after_emit (w d : World) (ev : Event) :
  after w (emit ev d) = emit ev (after w d).
Proof. unfold after, emit; simpl; now rewrite app_assoc. Qed.

Lemma after_store (w d : World) (ws : Worksheet) (r : row) :
  after w (store ws r d) = store ws r (after w d).
Proof. unfold after, store; simpl; now rewrite app_assoc. Qed.

Lemma framed_ret {A} (a : A) : framed (ret a).
Proof. intros w; unfold ret; simpl; now rewrite after_W0_r. Qed.

Lemma framed_raise {A} (e : Exception) : framed (@raise A e).
Proof. intros w; unfold raise; simpl; now rewrite after_W0_r. Qed.

Lemma framed_lift {A} (o : outcome A) : framed (lift o).
Proof. intros w; unfold lift; simpl; now rewrite after_W0_r. Qed.

Lemma framed_call {A} (ev : Event) (o : outcome A) : framed (call ev o).
Proof.
  intros w; unfold call; simpl. now rewrite after_emit, after_W0_r.
Qed.

Lemma framed_append_row (env : Env) (ws : Worksheet) (r : row) (opt : str) :
  framed (append_row env ws r opt).
Proof.
  intros w; unfold append_row.
  destruct (append_row_answer env ws r opt) as [[]|e]; simpl;
    now rewrite ?after_store, after_emit, after_W0_r.
Qed.

Lemma framed_bind {A B} (c : M A) (k : A -> M B) :
  framed c -> (forall a, framed (k a)) -> framed (bind c k).
Proof.
  intros Hc Hk w. unfold bind. rewrite (Hc w).
  destruct (c W0) as [[a|e] d]; simpl.
  - rewrite (Hk a (after w d)), (Hk a d); simpl. now rewrite after_assoc.
  - reflexivity.
Qed.

Lemma framed_try {A} (c : M A) (h : Exception -> M A) :
  framed c -> (forall e, framed (h e)) -> framed (try_except c h).
Proof.
  intros Hc Hh w. unfold try_except. rewrite (Hc w).
  destruct (c W0) as [[a|e] d]; simpl.
  - reflexivity.
  - rewrite (Hh e (after w d)), (Hh e d); simpl. now rewrite after_assoc.
Qed.

Lemma framed_enter {A} (ev : Event) (c : M A) :
  framed c -> framed (enter ev c).
Proof.
  intros Hc w. unfold enter. rewrite (Hc (emit ev w)), (Hc (emit ev W0)); simpl.
  rewrite after_assoc, after_emit, after_W0_r. reflexivity.
Qed.

Lemma framed_if {A} (b : bool) (c1 c2 : M A) :
  framed c1 -> framed c2 -> framed (if b then c1 else c2).
Proof. destruct b; auto. Qed.

End Framing.

(** The proof that a function is framed follows its syntax. *)
Ltac frame_step :=
  lazymatch goal with
  | |- framed (bind _ _) => apply framed_bind; [|intro]
  | |- framed (try_except _ _) => apply framed_try; [|intro]
  | |- framed (enter _ _) => apply framed_enter
  | |- framed (if _ then _ else _) => apply framed_if
  | |- framed (ret _) => apply framed_ret
  | |- framed (raise _) => apply framed_raise
  | |- framed (lift _) => apply framed_lift
  | |- framed (call _ _) => apply framed_call
  | |- framed (append_row _ _ _ _) => apply framed_append_row
  | |- framed ?c =>
    match goal with
    | H : framed c |- _ => exact H
    | H : forall a b d, framed _ |- _ => exact (H _ _ _)
    end
  end.

Ltac frame :=
  unfold create, auth_default, service_account_file, authorize,
    client_open_by_key, time_strftime; cbv zeta; repeat frame_step.

Section FramedProgram.

Variable env : Env.

Lemma Main_get_google_creds_framed : framed (Main._get_google_creds env).
Proof. unfold Main._get_google_creds. frame. Qed.

Lemma Main_get_sheet_framed : framed (Main._get_sheet env).
Proof.
  pose proof Main_get_google_creds_framed.
  unfold Main._get_sheet. frame.
Qed.

Lemma Main_log_message_framed (s b r : str) : framed (Main.log_message env s b r).
Proof.
  pose proof Main_get_sheet_framed.
  unfold Main.log_message. frame.
Qed.

Lemma Main_ai_code_framed (x : str) : framed (Main._ai_code env x).
Proof. unfold Main._ai_code. frame. Qed.

Lemma Main_ai_reply_framed (x : str) : framed (Main._ai_reply env x).
Proof. unfold Main._ai_reply. frame. Qed.

Lemma CC_get_google_creds_framed : framed (CodigoComentado._get_google_creds env).
Proof. unfold CodigoComentado._get_google_creds. frame. Qed.

Lemma CC_get_sheet_framed : framed (CodigoComentado._get_sheet env).
Proof.
  pose proof CC_get_google_creds_framed.
  unfold CodigoComentado._get_sheet. frame.
Qed.

Lemma CC_log_message_framed (s b r : str) :
  framed (CodigoComentado.log_message env s b r).
Proof.
  pose proof CC_get_sheet_framed.
  unfold CodigoComentado.log_message. frame.
Qed.

Lemma CC_ai_code_framed (x : str) : framed (CodigoComentado._ai_code env x).
Proof. unfold CodigoComentado._ai_code. frame. Qed.

Lemma CC_ai_reply_framed (x : str) : framed (CodigoComentado._ai_reply env x).
Proof. unfold CodigoComentado._ai_reply. frame. Qed.

Lemma Main_webhook_framed (request : Request) : framed (Main.webhook env request).
Proof.
  unfold Main.webhook, time_strftime. cbv zeta.
  repeat lazymatch goal with
  | |- framed (Main._get_sheet _) => apply Main_get_sheet_framed
  | |- framed (Main.log_message _ _ _ _) => apply Main_log_message_framed
  | |- framed (Main._ai_code _ _) => apply Main_ai_code_framed
  | |- framed (Main._ai_reply _ _) => apply Main_ai_reply_framed
  | |- _ => frame_step
  end.
Qed.

Lemma CC_webhook_framed (request : Request) :
  framed (CodigoComentado.webhook env request).
Proof.
  unfold CodigoComentado.webhook, time_strftime. cbv zeta.
  repeat lazymatch goal with
  | |- framed (CodigoComentado._get_sheet _) => apply CC_get_sheet_framed
  | |- framed (CodigoComentado.log_message _ _ _ _) =>
    apply CC_log_message_framed
  | |- framed (CodigoComentado._ai_code _ _) => apply CC_ai_code_framed
  | |- framed (CodigoComentado._ai_reply _ _) => apply CC_ai_reply_framed
  | |- _ => frame_step
  end.
Qed.

End FramedProgram.

(* ===================================================================== *)
(** * What each function does, run from a fresh world *)
(* ===================================================================== *)

Arguments strip : simpl never.
Arguments lower : simpl never.
Arguments or_else : simpl never.
Arguments opt_or : simpl never.
Arguments path_join : simpl never.
Arguments getenv : simpl never.
Arguments startswith : simpl never.
Arguments in_set : simpl never.
Arguments str_eqb : simpl never.
Arguments Twiml.to_str : simpl never.

(** Unfold the monad and split on what the outside world answers. *)
Ltac run :=
  unfold enter, try_except, bind, create, auth_default, service_account_file,
    authorize, client_open_by_key, append_row, time_strftime, call, lift,
    index0, strip_attr, ret, raise; simpl.

Ltac answer :=
  match goal with
  | |- context [match ?x with _ => _ end] =>
    lazymatch x with
    | context [match _ with _ => _ end] => fail
    | _ => destruct x eqn:?
    end
  end.

Ltac answers := repeat (answer; simpl).

Section Runs.

Variable env : Env.

Lemma or_else_empty (s : str) : or_else s (py "") = s.
Proof. destruct s; reflexivity. Qed.

Lemma observe_after (w d : World) :
  logger_calls (trace (after w d)) = logger_calls (trace w) ++ logger_calls (trace d)
  /\ code_calls (trace (after w d)) = code_calls (trace w) ++ code_calls (trace d)
  /\ reply_calls (trace (after w d)) = reply_calls (trace w) ++ reply_calls (trace d)
  /\ rows (after w d) = rows w ++ rows d.
Proof.
  unfold after, logger_calls, code_calls, reply_calls; simpl.
  now rewrite !flat_map_app.
Qed.

(** The credential resolver, step by step. *)
Lemma Main_get_google_creds_run (w : World) :
  Main._get_google_creds env w =
  match google_auth_default env Main.scopes with
  | Returned cp => (Returned (fst cp), emit (CallAuthDefault Main.scopes) w)
  | Raised _ =>
    let path := path_join (module_dir env) Main.SHEETS_CREDS_FILE in
    (from_service_account_file env path Main.scopes,
     emit (CallServiceAccountFile path Main.scopes)
          (emit (CallAuthDefault Main.scopes) w))
  end.
Proof.
  unfold Main._get_google_creds. run.
  destruct (google_auth_default env Main.scopes); simpl; [reflexivity|].
  destruct (from_service_account_file env _ Main.scopes); reflexivity.
Qed.

Lemma CC_get_google_creds_run (w : World) :
  CodigoComentado._get_google_creds env w =
  match google_auth_default env CodigoComentado.scopes with
  | Returned cp =>
    (Returned (fst cp), emit (CallAuthDefault CodigoComentado.scopes) w)
  | Raised _ =>
    let path :=
      path_join (module_dir env) (CodigoComentado.SHEETS_CREDS_FILE env) in
    (from_service_account_file env path CodigoComentado.scopes,
     emit (CallServiceAccountFile path CodigoComentado.scopes)
          (emit (CallAuthDefault CodigoComentado.scopes) w))
  end.
Proof.
  unfold CodigoComentado._get_google_creds. run.
  destruct (google_auth_default env CodigoComentado.scopes); simpl; [reflexivity|].
  destruct (from_service_account_file env _ CodigoComentado.scopes); reflexivity.
Qed.

(** Opening the sheet appends nothing and enters no logger or composer. *)
Lemma Main_get_sheet_quiet :
  rows (snd (Main._get_sheet env W0)) = []
  /\ quiet (trace (snd (Main._get_sheet env W0))).
Proof.
  unfold Main._get_sheet, Main._get_google_creds, quiet. run.
  answers; repeat split; reflexivity.
Qed.

Lemma CC_get_sheet_quiet :
  rows (snd (CodigoComentado._get_sheet env W0)) = []
  /\ quiet (trace (snd (CodigoComentado._get_sheet env W0))).
Proof.
  unfold CodigoComentado._get_sheet, CodigoComentado._get_google_creds, quiet.
  run. answers; repeat split; reflexivity.
Qed.

Lemma quiet_app (a b : list Event) : quiet a -> quiet b -> quiet (a ++ b).
Proof.
  unfold quiet, logger_calls, code_calls, reply_calls.
  intros (A1 & A2 & A3) (B1 & B2 & B3).
  rewrite !flat_map_app, A1, A2, A3, B1, B2, B3. auto.
Qed.

(** The logger: entered once, it returns whatever the store does, and
    the sheet gains the audit row exactly when the store takes it. *)
Lemma log_message_run_gen (get_sheet : Env -> M Worksheet)
    (body : M unit) (s b r : str) :
  framed (get_sheet env) ->
  rows (snd (get_sheet env W0)) = [] ->
  quiet (trace (snd (get_sheet env W0))) ->
  body = (ws <- get_sheet env ;;
          ts <- time_strftime env (py "%Y-%m-%d %H:%M:%S") ;;
          append_row env ws
            [ts; or_else s (py "-"); or_else b (py ""); or_else r (py "")]
            (py "RAW")) ->
  exists tr,
    enter (EnterLogMessage s b r) (try_except body (fun _ => ret tt)) W0 =
    (Returned tt,
     {| rows := stored (store_outcome get_sheet env (audit_row env s b r))
                       (audit_row env s b r);
        trace := EnterLogMessage s b r :: tr |})
    /\ quiet tr.
Proof.
  intros Hf Hr Hq ->.
  unfold enter, try_except, bind, store_outcome.
  rewrite (Hf (emit (EnterLogMessage s b r) W0)).
  destruct (get_sheet env W0) as [[ws|e] d]; simpl in *.
  - unfold time_strftime, ret, append_row.
    change [strftime env (py "%Y-%m-%d %H:%M:%S"); or_else s (py "-");
            or_else b (py ""); or_else r (py "")]
      with (audit_row env s b r).
    destruct (append_row_answer env ws (audit_row env s b r) (py "RAW"))
      as [[]|e]; unfold store, emit, after; simpl; rewrite Hr; simpl.
    + eexists; split; [reflexivity|].
      apply quiet_app; [assumption|repeat split].
    + eexists; split; [reflexivity|].
      apply quiet_app; [assumption|repeat split].
  - unfold after; simpl. rewrite Hr.
    eexists; split; [reflexivity|assumption].
Qed.

Lemma Main_log_message_run (s b r : str) :
  exists tr,
    Main.log_message env s b r W0 =
    (Returned tt,
     {| rows := stored (store_outcome Main._get_sheet env (audit_row env s b r))
                       (audit_row env s b r);
        trace := EnterLogMessage s b r :: tr |})
    /\ quiet tr.
Proof.
  apply log_message_run_gen;
    [ apply Main_get_sheet_framed | apply Main_get_sheet_quiet
    | apply Main_get_sheet_quiet | reflexivity ].
Qed.

Lemma CC_log_message_run (s b r : str) :
  exists tr,
    CodigoComentado.log_message env s b r W0 =
    (Returned tt,
     {| rows := stored (store_outcome CodigoComentado._get_sheet env
                                      (audit_row env s b r))
                       (audit_row env s b r);
        trace := EnterLogMessage s b r :: tr |})
    /\ quiet tr.
Proof.
  apply log_message_run_gen;
    [ apply CC_get_sheet_framed | apply CC_get_sheet_quiet
    | apply CC_get_sheet_quiet | reflexivity ].
Qed.

(** The composers: one entry, one request, and always a reply. *)
Lemma Main_ai_code_run (x : str) :
  Main._ai_code env x W0 =
  (Returned
     match chat_completions_create env (Main.code_request env x) with
     | Raised e => py "Ups, no pude generar el código: " ++ exc_str e
     | Returned r =>
       match choices r with
       | [] => py "Ups, no pude generar el código: "
                  ++ py "list index out of range"
       | None :: _ => py "Ups, no pude generar el código: "
                         ++ py "'NoneType' object has no attribute 'strip'"
       | Some c :: _ => strip c
       end
     end,
   {| rows := [];
      trace := [EnterAiCode x; CallChat (Main.code_request env x)] |}).
Proof.
  unfold Main._ai_code. run.
  destruct (chat_completions_create env (Main.code_request env x)) as [[[|[c|] cs]]|e];
    reflexivity.
Qed.

Lemma Main_ai_reply_run (x : str) :
  Main._ai_reply env x W0 =
  (Returned
     match chat_completions_create env (Main.reply_request env x) with
     | Raised e => py "Ups, hubo un error consultando a IA: " ++ exc_str e
     | Returned r =>
       match choices r with
       | [] => py "Ups, hubo un error consultando a IA: "
                  ++ py "list index out of range"
       | c :: _ => strip (opt_or c (py "No pude generar respuesta."))
       end
     end,
   {| rows := [];
      trace := [EnterAiReply x; CallChat (Main.reply_request env x)] |}).
Proof.
  unfold Main._ai_reply. run.
  destruct (chat_completions_create env (Main.reply_request env x)) as [[[|c cs]]|e];
    reflexivity.
Qed.

Lemma CC_ai_code_run (x : str) :
  CodigoComentado._ai_code env x W0 =
  (Returned
     match chat_completions_create env (CodigoComentado.code_request env x) with
     | Raised _ => CodigoComentado.code_fallback
     | Returned r =>
       match choices r with
       | [] => CodigoComentado.code_fallback
       | c :: _ => strip (opt_or c (py ""))
       end
     end,
   {| rows := [];
      trace := [EnterAiCode x;
                CallChat (CodigoComentado.code_request env x)] |}).
Proof.
  unfold CodigoComentado._ai_code. run.
  destruct (chat_completions_create env (CodigoComentado.code_request env x))
    as [[[|c cs]]|e]; reflexivity.
Qed.

Lemma CC_ai_reply_run (x : str) :
  CodigoComentado._ai_reply env x W0 =
  (Returned
     match chat_completions_create env (CodigoComentado.reply_request env x) with
     | Raised _ => CodigoComentado.reply_fallback
     | Returned r =>
       match choices r with
       | [] => CodigoComentado.reply_fallback
       | c :: _ => strip (opt_or c (py ""))
       end
     end,
   {| rows := [];
      trace := [EnterAiReply x;
                CallChat (CodigoComentado.reply_request env x)] |}).
Proof.
  unfold CodigoComentado._ai_reply. run.
  destruct (chat_completions_create env (CodigoComentado.reply_request env x))
    as [[[|c cs]]|e]; reflexivity.
Qed.

End Runs.

(* ===================================================================== *)
(** * The POST path: route, log, envelope *)
(* ===================================================================== *)

Section PostPath.

Variable env : Env.

Lemma xml_response_eq (reply : str) :
  set_header
    (make_response
       (Twiml.to_str (Twiml.message Twiml.new (or_else reply (py "")))) 200)
    (py "Content-Type") (py "application/xml")
  = twiml_response reply.
Proof.
  unfold set_header, make_response, twiml_response; simpl.
  now rewrite str_eqb_refl, or_else_empty.
Qed.

(** A route that replies, then a logger that returns, then the envelope. *)
Lemma pipeline_run (route : M str) (logger : str -> M unit)
    (reply : str) (dr : World) :
  route W0 = (Returned reply, dr) ->
  framed (logger reply) ->
  fst (logger reply W0) = Returned tt ->
  bind route (fun reply' =>
    bind (logger reply') (fun _ =>
      ret (set_header
             (make_response
                (Twiml.to_str (Twiml.message Twiml.new (or_else reply' (py ""))))
                200)
             (py "Content-Type") (py "application/xml")))) W0
  = (Returned (twiml_response reply), after dr (snd (logger reply W0))).
Proof.
  intros Hroute Hf Hret. unfold bind at 1. rewrite Hroute.
  unfold bind, ret. rewrite (Hf dr), Hret. now rewrite xml_response_eq.
Qed.

Lemma Main_log_message_returns (s b r : str) :
  fst (Main.log_message env s b r W0) = Returned tt.
Proof. destruct (Main_log_message_run env s b r) as [tr [E _]]. now rewrite E. Qed.

Lemma CC_log_message_returns (s b r : str) :
  fst (CodigoComentado.log_message env s b r W0) = Returned tt.
Proof. destruct (CC_log_message_run env s b r) as [tr [E _]]. now rewrite E. Qed.

(** main.py, POST: the reply the router picks, what computing it added
    ([dr]), and what logging it added ([dl]). *)
Lemma Main_webhook_post (request : Request) :
  is_post request = true ->
  let body := body_of request in
  let t := normalized env request in
  exists reply dr,
    Main.webhook env request W0 =
      (Returned (twiml_response reply),
       after dr (snd (Main.log_message env (sender_of request) body reply W0)))
    /\ (if in_set t [py "ping"; py "/ping"] then
          reply = py "pong" /\ dr = W0
        else if in_set t [py "help"; py "/help"; py "ayuda"; py "/ayuda"] then
          reply = Main.help_text /\ dr = W0
        else if startswith t (py "/code") then
          Main._ai_code env
            (or_else (strip (skipn 5 body)) (py "python ejemplo básico")) W0
          = (Returned reply, dr)
        else if negb (truthy body) then
          reply = Main.empty_text /\ dr = W0
        else
          Main._ai_reply env body W0 = (Returned reply, dr)).
Proof.
  intros Hpost body t. subst t. unfold normalized. subst body.
  unfold Main.webhook. unfold is_post in Hpost. rewrite Hpost. simpl negb. cbv iota zeta.
  fold (body_of request). fold (sender_of request).
  set (body := body_of request). set (t := lower (unicode env) body).
  assert (Hlen : len (py "/code") = 5%nat) by (vm_compute; reflexivity).
  unfold slice_from. rewrite Hlen.
  destruct (in_set t [py "ping"; py "/ping"]).
  { exists (py "pong"), W0. split; [|auto].
    apply (pipeline_run _ (fun r => Main.log_message env (sender_of request) body r));
      [reflexivity|apply Main_log_message_framed|apply Main_log_message_returns]. }
  destruct (in_set t [py "help"; py "/help"; py "ayuda"; py "/ayuda"]).
  { exists Main.help_text, W0. split; [|auto].
    apply (pipeline_run _ (fun r => Main.log_message env (sender_of request) body r));
      [reflexivity|apply Main_log_message_framed|apply Main_log_message_returns]. }
  destruct (startswith t (py "/code")).
  { destruct (Main._ai_code env
                (or_else (strip (skipn 5 body)) (py "python ejemplo básico")) W0)
      as [[reply|e] dr] eqn:E.
    - exists reply, dr. split; [|reflexivity].
      apply (pipeline_run _ (fun r => Main.log_message env (sender_of request) body r));
        [exact E|apply Main_log_message_framed|apply Main_log_message_returns].
    - rewrite Main_ai_code_run in E. discriminate. }
  destruct (truthy body); simpl negb; cbv iota.
  - destruct (Main._ai_reply env body W0) as [[reply|e] dr] eqn:E.
    + exists reply, dr. split; [|reflexivity].
      apply (pipeline_run _ (fun r => Main.log_message env (sender_of request) body r));
        [exact E|apply Main_log_message_framed|apply Main_log_message_returns].
    + rewrite Main_ai_reply_run in E. discriminate.
  - exists Main.empty_text, W0. split; [|auto].
    apply (pipeline_run _ (fun r => Main.log_message env (sender_of request) body r));
      [reflexivity|apply Main_log_message_framed|apply Main_log_message_returns].
Qed.

(** codigo_comentado.py, POST. *)
Lemma CC_webhook_post (request : Request) :
  is_post request = true ->
  let body := body_of request in
  let t := normalized env request in
  let sender := sender_of request in
  exists reply dr,
    CodigoComentado.webhook env request W0 =
      (Returned (twiml_response reply),
       after dr
         (if str_eqb t (py "/logtest") then W0
          else snd (CodigoComentado.log_message env sender body reply W0)))
    /\ (if in_set t [py "ping"; py "/ping"] then
          reply = py "pong" /\ dr = W0
        else if in_set t [py "help"; py "/help"; py "ayuda"; py "/ayuda"] then
          reply = CodigoComentado.help_text /\ dr = W0
        else if str_eqb t (py "/logtest") then
          reply = CodigoComentado.logtest_reply
          /\ dr = snd (CodigoComentado.log_message env sender
                         (py "[/logtest]") (py "OK log test") W0)
        else if startswith t (py "/code") then
          CodigoComentado._ai_code env
            (or_else (strip (skipn 5 body)) (py "python: imprimir Hola Mundo")) W0
          = (Returned reply, dr)
        else if negb (truthy body) then
          reply = CodigoComentado.empty_text /\ dr = W0
        else
          CodigoComentado._ai_reply env body W0 = (Returned reply, dr)).
Proof.
  intros Hpost body t sender. subst t sender. unfold normalized. subst body.
  unfold CodigoComentado.webhook. unfold is_post in Hpost. rewrite Hpost.
  simpl negb. cbv iota zeta.
  fold (body_of request). fold (sender_of request).
  set (body := body_of request). set (t := lower (unicode env) body).
  set (sender := sender_of request).
  assert (Hlen : len (py "/code") = 5%nat) by (vm_compute; reflexivity).
  unfold slice_from. rewrite Hlen.
  set (logger := fun r : str =>
         if negb (str_eqb t (py "/logtest"))
         then CodigoComentado.log_message env sender body r else ret tt).
  assert (Hf : forall r, framed (logger r)).
  { intros r. unfold logger. destruct (str_eqb t (py "/logtest")); simpl.
    - apply framed_ret.
    - apply CC_log_message_framed. }
  assert (Hret : forall r, fst (logger r W0) = Returned tt).
  { intros r. unfold logger. destruct (str_eqb t (py "/logtest")); simpl.
    - reflexivity.
    - apply CC_log_message_returns. }
  assert (Hsnd : forall r, snd (logger r W0) =
            if str_eqb t (py "/logtest") then W0
            else snd (CodigoComentado.log_message env sender body r W0)).
  { intros r. unfold logger. destruct (str_eqb t (py "/logtest")); reflexivity. }
  destruct (in_set t [py "ping"; py "/ping"]).
  { exists (py "pong"), W0. split; [|auto]. rewrite <- Hsnd.
    apply (pipeline_run _ logger); [reflexivity|apply Hf|apply Hret]. }
  destruct (in_set t [py "help"; py "/help"; py "ayuda"; py "/ayuda"]).
  { exists CodigoComentado.help_text, W0. split; [|auto]. rewrite <- Hsnd.
    apply (pipeline_run _ logger); [reflexivity|apply Hf|apply Hret]. }
  destruct (str_eqb t (py "/logtest")) eqn:Hlt.
  { exists CodigoComentado.logtest_reply,
      (snd (CodigoComentado.log_message env sender (py "[/logtest]")
              (py "OK log test") W0)).
    split; [|auto].
    rewrite <- (Hsnd CodigoComentado.logtest_reply).
    apply (pipeline_run _ logger); [|apply Hf|apply Hret].
    unfold bind, ret.
    pose proof (CC_log_message_returns sender (py "[/logtest]") (py "OK log test")) as R.
    rewrite (surjective_pairing
               (CodigoComentado.log_message env sender (py "[/logtest]")
                  (py "OK log test") W0)), R.
    reflexivity. }
  destruct (startswith t (py "/code")).
  { destruct (CodigoComentado._ai_code env
                (or_else (strip (skipn 5 body)) (py "python: imprimir Hola Mundo")) W0)
      as [[reply|e] dr] eqn:E.
    - exists reply, dr. split; [|reflexivity]. rewrite <- Hsnd.
      apply (pipeline_run _ logger); [exact E|apply Hf|apply Hret].
    - rewrite CC_ai_code_run in E. discriminate. }
  destruct (truthy body); simpl negb; cbv iota.
  - destruct (CodigoComentado._ai_reply env body W0) as [[reply|e] dr] eqn:E.
    + exists reply, dr. split; [|reflexivity]. rewrite <- Hsnd.
      apply (pipeline_run _ logger); [exact E|apply Hf|apply Hret].
    + rewrite CC_ai_reply_run in E. discriminate.
  - exists CodigoComentado.empty_text, W0. split; [|auto]. rewrite <- Hsnd.
    apply (pipeline_run _ logger); [reflexivity|apply Hf|apply Hret].
Qed.

End PostPath.

(* ===================================================================== *)
(** * The composers *)
(* ===================================================================== *)

(** Split a conjunction into its parts, and nothing else. *)
Ltac parts := repeat match goal with |- _ /\ _ => split end.

Lemma run_from {A} (c : M A) (o : outcome A) (d w : World) :
  framed c -> c W0 = (o, d) -> c w = (o, after w d).
Proof. intros Hf E. rewrite (Hf w), E. reflexivity. Qed.

(** C1 (as amended).  No composer raises: each one returns a reply for
    every text, whatever the provider answers.  When the provider call
    fails, or the completion holds no choice, the composers of
    [codigo_comentado.py] return their fixed fallbacks, an apology for
    the conversational one and a fenced block holding an apology for the
    code one; those of [main.py] return an apology prefix followed by
    the text of the error. *)
Theorem composers_never_raise (env : Env) (text : str) (w : World) :
  ((exists s d, CodigoComentado._ai_reply env text w = (Returned s, after w d))
   /\ (exists s d, CodigoComentado._ai_code env text w = (Returned s, after w d))
   /\ (exists s d, Main._ai_reply env text w = (Returned s, after w d))
   /\ (exists s d, Main._ai_code env text w = (Returned s, after w d)))
  /\ (forall e,
        chat_completions_create env (CodigoComentado.reply_request env text)
          = Raised e ->
        fst (CodigoComentado._ai_reply env text w)
          = Returned (py "No pude responder con IA ahora. Intenta de nuevo en unos segundos."))
  /\ (forall e,
        chat_completions_create env (CodigoComentado.code_request env text)
          = Raised e ->
        fst (CodigoComentado._ai_code env text w)
          = Returned (py "```txt" ++ NL
                      ++ py "No pude generar el código ahora. Reintenta en unos segundos."
                      ++ NL ++ py "```"))
  /\ (forall e,
        chat_completions_create env (Main.reply_request env text) = Raised e ->
        fst (Main._ai_reply env text w)
          = Returned (py "Ups, hubo un error consultando a IA: " ++ exc_str e))
  /\ (forall e,
        chat_completions_create env (Main.code_request env text) = Raised e ->
        fst (Main._ai_code env text w)
          = Returned (py "Ups, no pude generar el código: " ++ exc_str e))
  /\ (chat_completions_create env (CodigoComentado.reply_request env text)
        = Returned {| choices := [] |} ->
      fst (CodigoComentado._ai_reply env text w)
        = Returned (py "No pude responder con IA ahora. Intenta de nuevo en unos segundos."))
  /\ (chat_completions_create env (CodigoComentado.code_request env text)
        = Returned {| choices := [] |} ->
      fst (CodigoComentado._ai_code env text w)
        = Returned (py "```txt" ++ NL
                    ++ py "No pude generar el código ahora. Reintenta en unos segundos."
                    ++ NL ++ py "```"))
  /\ (chat_completions_create env (Main.reply_request env text)
        = Returned {| choices := [] |} ->
      fst (Main._ai_reply env text w)
        = Returned (py "Ups, hubo un error consultando a IA: "
                    ++ py "list index out of range"))
  /\ (chat_completions_create env (Main.code_request env text)
        = Returned {| choices := [] |} ->
      fst (Main._ai_code env text w)
        = Returned (py "Ups, no pude generar el código: "
                    ++ py "list index out of range")).
Proof.
  pose proof (run_from _ _ _ w (CC_ai_reply_framed env text) (CC_ai_reply_run env text)) as R1.
  pose proof (run_from _ _ _ w (CC_ai_code_framed env text) (CC_ai_code_run env text)) as R2.
  pose proof (run_from _ _ _ w (Main_ai_reply_framed env text) (Main_ai_reply_run env text)) as R3.
  pose proof (run_from _ _ _ w (Main_ai_code_framed env text) (Main_ai_code_run env text)) as R4.
  split; [|split; [|split; [|split; [|split; [|split; [|split; [|split]]]]]]].
  - split; [|split; [|split]].
    + eexists; eexists; exact R1.
    + eexists; eexists; exact R2.
    + eexists; eexists; exact R3.
    + eexists; eexists; exact R4.
  - intros e He. rewrite R1, He. reflexivity.
  - intros e He. rewrite R2, He. reflexivity.
  - intros e He. rewrite R3, He. reflexivity.
  - intros e He. rewrite R4, He. reflexivity.
  - intros He. rewrite R1, He. reflexivity.
  - intros He. rewrite R2, He. reflexivity.
  - intros He. rewrite R3, He. reflexivity.
  - intros He. rewrite R4, He. reflexivity.
Qed.

(** With the provider down, [codigo_comentado.py] answers its fixed
    texts and [main.py] quotes the error. *)
Lemma composers_never_raise_witness :
  fst (CodigoComentado._ai_reply (Sample.env_chat_down "timeout") (py "hola") W0)
    = Returned (py "No pude responder con IA ahora. Intenta de nuevo en unos segundos.")
  /\ fst (Main._ai_code (Sample.env_chat_down "timeout") (py "bash: ls") W0)
    = Returned (py "Ups, no pude generar el código: " ++ py "timeout").
Proof.
  split.
  - apply (proj1 (proj2 (composers_never_raise
             (Sample.env_chat_down "timeout") (py "hola") W0))
             (Sample.boom "timeout")).
    reflexivity.
  - apply (proj1 (proj2 (proj2 (proj2 (proj2 (composers_never_raise
             (Sample.env_chat_down "timeout") (py "bash: ls") W0)))))
             (Sample.boom "timeout")).
    reflexivity.
Defined.

(** C1 (as stated) fails on [main.py]: the fallback of its code composer
    is not a fenced block, and the fallback of its conversational
    composer changes with the error. *)
Lemma composers_fixed_fallback_counterexample :
  fst (Main._ai_code (Sample.env_chat_down "timeout") (py "bash: ls") W0)
    = Returned (py "Ups, no pude generar el código: timeout")
  /\ startswith (py "Ups, no pude generar el código: timeout") (py "```") = false
  /\ fst (Main._ai_reply (Sample.env_chat_down "timeout") (py "hola") W0)
    = Returned (py "Ups, hubo un error consultando a IA: timeout")
  /\ fst (Main._ai_reply (Sample.env_chat_down "quota") (py "hola") W0)
    = Returned (py "Ups, hubo un error consultando a IA: quota")
  /\ py "Ups, hubo un error consultando a IA: timeout"
     <> py "Ups, hubo un error consultando a IA: quota".
Proof.
  parts; try (vm_compute; reflexivity).
  vm_compute. discriminate.
Qed.

(* ===================================================================== *)
(** * The credential resolver *)
(* ===================================================================== *)

(** C8.  The resolver asks for the ambient identity first, with the pair
    of scopes (spreadsheets, drive).  When that succeeds its credential
    is returned and no keyfile is read.  Only when it fails is the
    configured keyfile loaded, with the same scopes, and its answer is
    the resolver's.  The resolver raises only when both have failed.
    This holds for both files; in [main.py] the keyfile name is fixed, in
    [codigo_comentado.py] it is read from [SHEETS_CREDS_FILE]. *)
Theorem resolver_adc_then_keyfile (env : Env) (w : World) :
  let scopes := [ py "https://www.googleapis.com/auth/spreadsheets";
                  py "https://www.googleapis.com/auth/drive" ] in
  let adc := google_auth_default env scopes in
  let path_main := path_join (module_dir env) (py "service_account.json") in
  let path_cc :=
    path_join (module_dir env)
      (getenv env (py "SHEETS_CREDS_FILE") (py "service_account.json")) in
  (forall c p, adc = Returned (c, p) ->
     Main._get_google_creds env w
       = (Returned c, emit (CallAuthDefault scopes) w)
     /\ CodigoComentado._get_google_creds env w
       = (Returned c, emit (CallAuthDefault scopes) w)
     /\ keyfile_reads (trace (emit (CallAuthDefault scopes) w))
       = keyfile_reads (trace w))
  /\ (forall e, adc = Raised e ->
     Main._get_google_creds env w
       = (from_service_account_file env path_main scopes,
          emit (CallServiceAccountFile path_main scopes)
               (emit (CallAuthDefault scopes) w))
     /\ CodigoComentado._get_google_creds env w
       = (from_service_account_file env path_cc scopes,
          emit (CallServiceAccountFile path_cc scopes)
               (emit (CallAuthDefault scopes) w)))
  /\ (forall e, fst (Main._get_google_creds env w) = Raised e ->
     (exists e1, adc = Raised e1)
     /\ from_service_account_file env path_main scopes = Raised e)
  /\ (forall e, fst (CodigoComentado._get_google_creds env w) = Raised e ->
     (exists e1, adc = Raised e1)
     /\ from_service_account_file env path_cc scopes = Raised e).
Proof.
  intros scopes adc path_main path_cc.
  pose proof (Main_get_google_creds_run env w) as RM.
  pose proof (CC_get_google_creds_run env w) as RC.
  change Main.scopes with scopes in RM.
  change CodigoComentado.scopes with scopes in RC.
  change Main.SHEETS_CREDS_FILE with (py "service_account.json") in RM.
  change (CodigoComentado.SHEETS_CREDS_FILE env)
    with (getenv env (py "SHEETS_CREDS_FILE") (py "service_account.json")) in RC.
  fold adc in RM, RC. cbv zeta in RM, RC. fold path_main in RM. fold path_cc in RC.
  split; [|split; [|split]].
  - intros c p H. rewrite H in RM, RC. simpl in RM, RC.
    split; [exact RM|split; [exact RC|]].
    unfold keyfile_reads, emit; simpl. rewrite flat_map_app; simpl.
    now rewrite app_nil_r.
  - intros e H. rewrite H in RM, RC. split; [exact RM|exact RC].
  - intros e H. rewrite RM in H. destruct adc as [cp|e1].
    + discriminate.
    + split; [eexists; reflexivity|exact H].
  - intros e H. rewrite RC in H. destruct adc as [cp|e1].
    + discriminate.
    + split; [eexists; reflexivity|exact H].
Qed.

(** With an ambient identity the resolver answers it and reads no
    keyfile; without one, and without a keyfile, it raises the keyfile's
    error. *)
Lemma resolver_adc_then_keyfile_witness :
  (Main._get_google_creds Sample.env_up W0
     = (Returned {| cred_id := 1 |}, emit (CallAuthDefault Main.scopes) W0)
   /\ keyfile_reads (trace (emit (CallAuthDefault Main.scopes) W0)) = [])
  /\ (exists e1,
        google_auth_default Sample.env_no_creds CodigoComentado.scopes = Raised e1).
Proof.
  split.
  - destruct (proj1 (resolver_adc_then_keyfile Sample.env_up W0)
                {| cred_id := 1 |} (Some (py "whatsapp-bot-emanuel")) eq_refl)
      as (HM & _ & HK).
    split; [exact HM|exact HK].
  - apply (proj2 (proj2 (proj2 (resolver_adc_then_keyfile Sample.env_no_creds W0)))
             (Sample.boom "no such file")).
    reflexivity.
Defined.

(* ===================================================================== *)
(** * The health check and the debug probe *)
(* ===================================================================== *)

Section DebugProbe.

Variable env : Env.

(** The probe: open the sheet, append the test row, answer 200; any
    exception on the way is answered with 500 and its text. *)
Lemma debug_run_gen (get_sheet : Env -> M Worksheet) (marker : str) :
  framed (get_sheet env) ->
  rows (snd (get_sheet env W0)) = [] ->
  let r := [ strftime env (py "%Y-%m-%d %H:%M:%S");
             py "debug"; marker; py "fila de test" ] in
  exists resp d,
    try_except
      (ws <- get_sheet env ;;
       ts <- time_strftime env (py "%Y-%m-%d %H:%M:%S") ;;
       append_row env ws [ts; py "debug"; marker; py "fila de test"] (py "RAW") ;;;
       ret (make_response (py "debug wrote row") 200))
      (fun e => ret (make_response (py "debug error: " ++ exc_str e) 500)) W0
    = (Returned resp, d)
    /\ match store_outcome get_sheet env r with
       | Returned ws =>
         resp = make_response (py "debug wrote row") 200 /\ rows d = [(ws, r)]
       | Raised e =>
         resp = make_response (py "debug error: " ++ exc_str e) 500 /\ rows d = []
       end.
Proof.
  intros Hf Hr r. unfold try_except, bind, store_outcome.
  destruct (get_sheet env W0) as [[ws|e] d0]; simpl in *.
  - unfold time_strftime, ret, append_row. fold r.
    destruct (append_row_answer env ws r (py "RAW")) as [[]|e];
      unfold store, emit; simpl; rewrite Hr;
      eexists; eexists; (split; [reflexivity|split; reflexivity]).
  - unfold ret. eexists; eexists. split; [reflexivity|]. split; [reflexivity|assumption].
Qed.

Lemma Main_webhook_debug (request : Request) :
  is_post request = false -> debug_flag request = true ->
  let r := [ strftime env (py "%Y-%m-%d %H:%M:%S");
             py "debug"; py "GET /?debug=1"; py "fila de test" ] in
  exists resp d,
    Main.webhook env request W0 = (Returned resp, d)
    /\ match store_outcome Main._get_sheet env r with
       | Returned ws =>
         resp = make_response (py "debug wrote row") 200 /\ rows d = [(ws, r)]
       | Raised e =>
         resp = make_response (py "debug error: " ++ exc_str e) 500 /\ rows d = []
       end.
Proof.
  intros Hm Hd. unfold is_post in Hm. unfold debug_flag in Hd.
  unfold Main.webhook. rewrite Hm, Hd. simpl negb. cbv iota.
  apply debug_run_gen; [apply Main_get_sheet_framed|apply Main_get_sheet_quiet].
Qed.

Lemma CC_webhook_debug (request : Request) :
  is_post request = false -> debug_flag request = true ->
  let r := [ strftime env (py "%Y-%m-%d %H:%M:%S");
             py "debug"; py "GET ?debug=1"; py "fila de test" ] in
  exists resp d,
    CodigoComentado.webhook env request W0 = (Returned resp, d)
    /\ match store_outcome CodigoComentado._get_sheet env r with
       | Returned ws =>
         resp = make_response (py "debug wrote row") 200 /\ rows d = [(ws, r)]
       | Raised e =>
         resp = make_response (py "debug error: " ++ exc_str e) 500 /\ rows d = []
       end.
Proof.
  intros Hm Hd. unfold is_post in Hm. unfold debug_flag in Hd.
  unfold CodigoComentado.webhook. rewrite Hm, Hd. simpl negb. cbv iota.
  apply debug_run_gen; [apply CC_get_sheet_framed|apply CC_get_sheet_quiet].
Qed.

End DebugProbe.

(** C9.  A request that is not a POST and carries no [debug=1] is
    answered 200 with body [ok], and nothing else happens.  With
    [debug=1], when the sheet opens and takes the test row the answer is
    200 with the confirmation text and that row is in the sheet; when any
    step fails the answer is 500, its body describes the error, and no
    row is appended.  Both files. *)
Theorem debug_probe_answers (env : Env) (request : Request) (w : World) :
  is_post request = false ->
  let ts := strftime env (py "%Y-%m-%d %H:%M:%S") in
  let row_main := [ts; py "debug"; py "GET /?debug=1"; py "fila de test"] in
  let row_cc := [ts; py "debug"; py "GET ?debug=1"; py "fila de test"] in
  (debug_flag request = false ->
     Main.webhook env request w = (Returned (make_response (py "ok") 200), w)
     /\ CodigoComentado.webhook env request w
        = (Returned (make_response (py "ok") 200), w)
     /\ status (make_response (py "ok") 200) = 200
     /\ data (make_response (py "ok") 200) = py "ok")
  /\ (debug_flag request = true ->
     (forall ws, store_outcome Main._get_sheet env row_main = Returned ws ->
        exists resp d,
          Main.webhook env request w = (Returned resp, after w d)
          /\ status resp = 200 /\ data resp = py "debug wrote row"
          /\ rows d = [(ws, row_main)])
     /\ (forall e, store_outcome Main._get_sheet env row_main = Raised e ->
        exists resp d,
          Main.webhook env request w = (Returned resp, after w d)
          /\ status resp = 500 /\ data resp = py "debug error: " ++ exc_str e
          /\ rows d = [])
     /\ (forall ws, store_outcome CodigoComentado._get_sheet env row_cc = Returned ws ->
        exists resp d,
          CodigoComentado.webhook env request w = (Returned resp, after w d)
          /\ status resp = 200 /\ data resp = py "debug wrote row"
          /\ rows d = [(ws, row_cc)])
     /\ (forall e, store_outcome CodigoComentado._get_sheet env row_cc = Raised e ->
        exists resp d,
          CodigoComentado.webhook env request w = (Returned resp, after w d)
          /\ status resp = 500 /\ data resp = py "debug error: " ++ exc_str e
          /\ rows d = [])).
Proof.
  intros Hm ts row_main row_cc. split.
  - intros Hd. unfold Main.webhook, CodigoComentado.webhook.
    unfold is_post in Hm. unfold debug_flag in Hd. rewrite Hm, Hd.
    simpl negb. cbv iota. repeat split; reflexivity.
  - intros Hd.
    destruct (Main_webhook_debug env request Hm Hd) as (rM & dM & EM & HM).
    destruct (CC_webhook_debug env request Hm Hd) as (rC & dC & EC & HC).
    fold ts in HM, HC. fold row_main in HM. fold row_cc in HC.
    apply (run_from _ _ _ w (Main_webhook_framed env request)) in EM.
    apply (run_from _ _ _ w (CC_webhook_framed env request)) in EC.
    split; [|split; [|split]].
    + intros ws H. rewrite H in HM. destruct HM as [-> Hrows].
      exists (make_response (py "debug wrote row") 200), dM. auto.
    + intros e H. rewrite H in HM. destruct HM as [-> Hrows].
      exists (make_response (py "debug error: " ++ exc_str e) 500), dM. auto.
    + intros ws H. rewrite H in HC. destruct HC as [-> Hrows].
      exists (make_response (py "debug wrote row") 200), dC. auto.
    + intros e H. rewrite H in HC. destruct HC as [-> Hrows].
      exists (make_response (py "debug error: " ++ exc_str e) 500), dC. auto.
Qed.

(** A plain GET is answered [ok]; a probe with no spreadsheet identifier
    is answered 500 with the error and leaves the sheet alone. *)
Lemma debug_probe_answers_witness :
  Main.webhook Sample.env_up (Sample.get_request []) W0
    = (Returned (make_response (py "ok") 200), W0)
  /\ exists resp d,
       CodigoComentado.webhook Sample.env_no_sheet
         (Sample.get_request [(py "debug", py "1")]) W0
         = (Returned resp, after W0 d)
       /\ status resp = 500
       /\ data resp = py "debug error: "
            ++ py "SHEET_ID vacío. Define la variable de entorno SHEET_ID."
       /\ rows d = [].
Proof.
  split.
  - apply (proj1 (debug_probe_answers Sample.env_up (Sample.get_request []) W0
                    ltac:(vm_compute; reflexivity))).
    vm_compute; reflexivity.
  - apply (proj2 (proj2 (proj2 (proj2 (debug_probe_answers Sample.env_no_sheet
             (Sample.get_request [(py "debug", py "1")]) W0
             ltac:(vm_compute; reflexivity)) ltac:(vm_compute; reflexivity))))
             {| exc_str :=
                  py "SHEET_ID vacío. Define la variable de entorno SHEET_ID." |}).
    vm_compute; reflexivity.
Defined.

(* ===================================================================== *)
(** * The reply does not depend on the store *)
(* ===================================================================== *)

Section ReplyAndStore.

Variables env env' : Env.

Hypothesis same_unicode : forall s i, unicode env s i = unicode env' s i.
Hypothesis same_provider :
  forall r, chat_completions_create env r = chat_completions_create env' r.
Hypothesis same_model :
  getenv env (py "OPENAI_MODEL") (py "gpt-4o-mini")
  = getenv env' (py "OPENAI_MODEL") (py "gpt-4o-mini").

Lemma lower_from_ext (whole s : str) (i : nat) :
  lower_from (unicode env) whole i s = lower_from (unicode env') whole i s.
Proof.
  revert i; induction s as [|c s IH]; intros i; simpl; [reflexivity|].
  now rewrite IH, same_unicode.
Qed.

Lemma normalized_ext (request : Request) :
  normalized env request = normalized env' request.
Proof. unfold normalized, lower. apply lower_from_ext. Qed.

Lemma Main_ai_code_ext (x : str) :
  fst (Main._ai_code env x W0) = fst (Main._ai_code env' x W0).
Proof.
  rewrite !Main_ai_code_run. simpl.
  unfold Main.code_request, Main.OPENAI_MODEL.
  now rewrite same_model, same_provider.
Qed.

Lemma Main_ai_reply_ext (x : str) :
  fst (Main._ai_reply env x W0) = fst (Main._ai_reply env' x W0).
Proof.
  rewrite !Main_ai_reply_run. simpl.
  unfold Main.reply_request, Main.OPENAI_MODEL.
  now rewrite same_model, same_provider.
Qed.

Lemma CC_ai_code_ext (x : str) :
  fst (CodigoComentado._ai_code env x W0)
  = fst (CodigoComentado._ai_code env' x W0).
Proof.
  rewrite !CC_ai_code_run. simpl.
  unfold CodigoComentado.code_request, CodigoComentado.MODEL.
  now rewrite same_model, same_provider.
Qed.

Lemma CC_ai_reply_ext (x : str) :
  fst (CodigoComentado._ai_reply env x W0)
  = fst (CodigoComentado._ai_reply env' x W0).
Proof.
  rewrite !CC_ai_reply_run. simpl.
  unfold CodigoComentado.reply_request, CodigoComentado.MODEL.
  now rewrite same_model, same_provider.
Qed.

Lemma Main_reply_ext (request : Request) :
  is_post request = true ->
  exists reply d d',
    Main.webhook env request W0 = (Returned (twiml_response reply), d)
    /\ Main.webhook env' request W0 = (Returned (twiml_response reply), d').
Proof.
  intros Hp.
  destruct (Main_webhook_post env request Hp) as (r1 & d1 & E1 & C1).
  destruct (Main_webhook_post env' request Hp) as (r2 & d2 & E2 & C2).
  rewrite <- normalized_ext in C2.
  exists r1. eexists. eexists. split; [exact E1|].
  rewrite E2. repeat f_equal.
  destruct (in_set _ [py "ping"; py "/ping"]).
  { destruct C1 as [-> _], C2 as [-> _]. reflexivity. }
  destruct (in_set _ [py "help"; py "/help"; py "ayuda"; py "/ayuda"]).
  { destruct C1 as [-> _], C2 as [-> _]. reflexivity. }
  destruct (startswith _ (py "/code")).
  { pose proof (Main_ai_code_ext
        (or_else (strip (skipn 5 (body_of request))) (py "python ejemplo básico"))) as X.
    rewrite C1, C2 in X. simpl in X. congruence. }
  destruct (negb (truthy (body_of request))).
  { destruct C1 as [-> _], C2 as [-> _]. reflexivity. }
  pose proof (Main_ai_reply_ext (body_of request)) as X.
  rewrite C1, C2 in X. simpl in X. congruence.
Qed.

Lemma CC_reply_ext (request : Request) :
  is_post request = true ->
  exists reply d d',
    CodigoComentado.webhook env request W0 = (Returned (twiml_response reply), d)
    /\ CodigoComentado.webhook env' request W0
       = (Returned (twiml_response reply), d').
Proof.
  intros Hp.
  destruct (CC_webhook_post env request Hp) as (r1 & d1 & E1 & C1).
  destruct (CC_webhook_post env' request Hp) as (r2 & d2 & E2 & C2).
  cbv zeta in E1, E2, C1, C2.
  rewrite <- normalized_ext in C2.
  exists r1. eexists. eexists. split; [exact E1|].
  rewrite E2. repeat f_equal.
  destruct (in_set _ [py "ping"; py "/ping"]).
  { destruct C1 as [-> _], C2 as [-> _]. reflexivity. }
  destruct (in_set _ [py "help"; py "/help"; py "ayuda"; py "/ayuda"]).
  { destruct C1 as [-> _], C2 as [-> _]. reflexivity. }
  destruct (str_eqb _ (py "/logtest")).
  { destruct C1 as [-> _], C2 as [-> _]. reflexivity. }
  destruct (startswith _ (py "/code")).
  { pose proof (CC_ai_code_ext
        (or_else (strip (skipn 5 (body_of request)))
                 (py "python: imprimir Hola Mundo"))) as X.
    rewrite C1, C2 in X. simpl in X. congruence. }
  destruct (negb (truthy (body_of request))).
  { destruct C1 as [-> _], C2 as [-> _]. reflexivity. }
  pose proof (CC_ai_reply_ext (body_of request)) as X.
  rewrite C1, C2 in X. simpl in X. congruence.
Qed.

End ReplyAndStore.

(** C2.  Every POST is answered with status 200 and the XML envelope
    around the reply, and the reply is the same under any behaviour of
    the spreadsheet side: [env'] is any environment with the same
    provider, model name and Unicode tables as [env]; its spreadsheet
    identifier, credentials and sheet may be missing or failing.  So a
    failure of the logger neither stops the reply nor changes it.  Both
    files. *)
Theorem log_failure_keeps_reply (env env' : Env) (request : Request)
    (w w' : World) :
  is_post request = true ->
  (forall s i, unicode env s i = unicode env' s i) ->
  (forall r, chat_completions_create env r = chat_completions_create env' r) ->
  getenv env (py "OPENAI_MODEL") (py "gpt-4o-mini")
    = getenv env' (py "OPENAI_MODEL") (py "gpt-4o-mini") ->
  (exists reply d d',
     Main.webhook env request w = (Returned (twiml_response reply), after w d)
     /\ Main.webhook env' request w'
        = (Returned (twiml_response reply), after w' d')
     /\ status (twiml_response reply) = 200
     /\ data (twiml_response reply)
        = Twiml.to_str (Twiml.message Twiml.new reply)
     /\ get (headers (twiml_response reply)) (py "Content-Type")
        = Some (py "application/xml"))
  /\ (exists reply d d',
     CodigoComentado.webhook env request w
       = (Returned (twiml_response reply), after w d)
     /\ CodigoComentado.webhook env' request w'
        = (Returned (twiml_response reply), after w' d')
     /\ status (twiml_response reply) = 200
     /\ data (twiml_response reply)
        = Twiml.to_str (Twiml.message Twiml.new reply)
     /\ get (headers (twiml_response reply)) (py "Content-Type")
        = Some (py "application/xml")).
Proof.
  intros Hp Hu Hc Hm.
  assert (Hhdr : forall reply,
            get (headers (twiml_response reply)) (py "Content-Type")
            = Some (py "application/xml")).
  { intros reply. unfold twiml_response; simpl. now rewrite str_eqb_refl. }
  split.
  - destruct (Main_reply_ext env env' Hu Hc Hm request Hp) as (r & d & d' & E & E').
    exists r, d, d'.
    apply (run_from _ _ _ w (Main_webhook_framed env request)) in E.
    apply (run_from _ _ _ w' (Main_webhook_framed env' request)) in E'.
    repeat split; auto.
  - destruct (CC_reply_ext env env' Hu Hc Hm request Hp) as (r & d & d' & E & E').
    exists r, d, d'.
    apply (run_from _ _ _ w (CC_webhook_framed env request)) in E.
    apply (run_from _ _ _ w' (CC_webhook_framed env' request)) in E'.
    repeat split; auto.
Qed.

(** The same question with the sheet reachable and with no spreadsheet
    identifier at all: the same answer. *)
Lemma log_failure_keeps_reply_witness :
  exists reply d d',
    CodigoComentado.webhook Sample.env_up (Sample.post "hola" "+1555") W0
      = (Returned (twiml_response reply), after W0 d)
    /\ CodigoComentado.webhook Sample.env_no_sheet (Sample.post "hola" "+1555") W0
      = (Returned (twiml_response reply), after W0 d').
Proof.
  destruct (proj2 (log_failure_keeps_reply Sample.env_up Sample.env_no_sheet
                     (Sample.post "hola" "+1555") W0 W0
                     ltac:(vm_compute; reflexivity)
                     (fun _ _ => eq_refl) (fun _ => eq_refl)
                     ltac:(vm_compute; reflexivity)))
    as (reply & d & d' & E & E' & _).
  exists reply, d, d'. split; [exact E|exact E'].
Defined.

(* ===================================================================== *)
(** * What a POST leaves behind *)
(* ===================================================================== *)

Section PostObserved.

Variable env : Env.

Lemma Main_log_delta (s b r : str) :
  let dl := snd (Main.log_message env s b r W0) in
  logger_calls (trace dl) = [(s, b, r)]
  /\ code_calls (trace dl) = [] /\ reply_calls (trace dl) = []
  /\ rows dl = stored (store_outcome Main._get_sheet env (audit_row env s b r))
                      (audit_row env s b r).
Proof.
  destruct (Main_log_message_run env s b r) as (tr & E & Q1 & Q2 & Q3).
  rewrite E; simpl. rewrite Q1, Q2, Q3. auto.
Qed.

Lemma CC_log_delta (s b r : str) :
  let dl := snd (CodigoComentado.log_message env s b r W0) in
  logger_calls (trace dl) = [(s, b, r)]
  /\ code_calls (trace dl) = [] /\ reply_calls (trace dl) = []
  /\ rows dl = stored (store_outcome CodigoComentado._get_sheet env
                                     (audit_row env s b r))
                      (audit_row env s b r).
Proof.
  destruct (CC_log_message_run env s b r) as (tr & E & Q1 & Q2 & Q3).
  rewrite E; simpl. rewrite Q1, Q2, Q3. auto.
Qed.

(** A route that replies without calling anything, then the logger. *)
Lemma Main_fixed_reply (request : Request) (reply : str) :
  let s := sender_of request in
  let b := body_of request in
  let d := after W0 (snd (Main.log_message env s b reply W0)) in
  logger_calls (trace d) = [(s, b, reply)]
  /\ code_calls (trace d) = [] /\ reply_calls (trace d) = []
  /\ rows d = stored (store_outcome Main._get_sheet env (audit_row env s b reply))
                     (audit_row env s b reply).
Proof. intros s b d. unfold d. rewrite after_W0_l. apply Main_log_delta. Qed.

Lemma CC_fixed_reply (request : Request) (reply : str) :
  let s := sender_of request in
  let b := body_of request in
  let d := after W0 (snd (CodigoComentado.log_message env s b reply W0)) in
  logger_calls (trace d) = [(s, b, reply)]
  /\ code_calls (trace d) = [] /\ reply_calls (trace d) = []
  /\ rows d = stored (store_outcome CodigoComentado._get_sheet env
                                    (audit_row env s b reply))
                     (audit_row env s b reply).
Proof. intros s b d. unfold d. rewrite after_W0_l. apply CC_log_delta. Qed.

(** A composer, then the logger. *)
Lemma Main_code_then_log (s b x reply : str) (dr : World) :
  Main._ai_code env x W0 = (Returned reply, dr) ->
  let d := after dr (snd (Main.log_message env s b reply W0)) in
  logger_calls (trace d) = [(s, b, reply)]
  /\ code_calls (trace d) = [x] /\ reply_calls (trace d) = [].
Proof.
  intros E d. rewrite Main_ai_code_run in E. injection E as _ <-.
  destruct (observe_after
              {| rows := []; trace := [EnterAiCode x; CallChat (Main.code_request env x)] |}
              (snd (Main.log_message env s b reply W0))) as (A & B & C & _).
  destruct (Main_log_delta s b reply) as (L1 & L2 & L3 & _).
  unfold d. rewrite A, B, C, L1, L2, L3. auto.
Qed.

Lemma Main_reply_then_log (s b x reply : str) (dr : World) :
  Main._ai_reply env x W0 = (Returned reply, dr) ->
  let d := after dr (snd (Main.log_message env s b reply W0)) in
  logger_calls (trace d) = [(s, b, reply)]
  /\ code_calls (trace d) = [] /\ reply_calls (trace d) = [x].
Proof.
  intros E d. rewrite Main_ai_reply_run in E. injection E as _ <-.
  destruct (observe_after
              {| rows := []; trace := [EnterAiReply x; CallChat (Main.reply_request env x)] |}
              (snd (Main.log_message env s b reply W0))) as (A & B & C & _).
  destruct (Main_log_delta s b reply) as (L1 & L2 & L3 & _).
  unfold d. rewrite A, B, C, L1, L2, L3. auto.
Qed.

Lemma CC_code_then_log (s b x reply : str) (dr : World) :
  CodigoComentado._ai_code env x W0 = (Returned reply, dr) ->
  let d := after dr (snd (CodigoComentado.log_message env s b reply W0)) in
  logger_calls (trace d) = [(s, b, reply)]
  /\ code_calls (trace d) = [x] /\ reply_calls (trace d) = [].
Proof.
  intros E d. rewrite CC_ai_code_run in E. injection E as _ <-.
  destruct (observe_after
              {| rows := [];
                 trace := [EnterAiCode x;
                           CallChat (CodigoComentado.code_request env x)] |}
              (snd (CodigoComentado.log_message env s b reply W0)))
    as (A & B & C & _).
  destruct (CC_log_delta s b reply) as (L1 & L2 & L3 & _).
  unfold d. rewrite A, B, C, L1, L2, L3. auto.
Qed.

Lemma CC_reply_then_log (s b x reply : str) (dr : World) :
  CodigoComentado._ai_reply env x W0 = (Returned reply, dr) ->
  let d := after dr (snd (CodigoComentado.log_message env s b reply W0)) in
  logger_calls (trace d) = [(s, b, reply)]
  /\ code_calls (trace d) = [] /\ reply_calls (trace d) = [x].
Proof.
  intros E d. rewrite CC_ai_reply_run in E. injection E as _ <-.
  destruct (observe_after
              {| rows := [];
                 trace := [EnterAiReply x;
                           CallChat (CodigoComentado.reply_request env x)] |}
              (snd (CodigoComentado.log_message env s b reply W0)))
    as (A & B & C & _).
  destruct (CC_log_delta s b reply) as (L1 & L2 & L3 & _).
  unfold d. rewrite A, B, C, L1, L2, L3. auto.
Qed.

End PostObserved.

(* ===================================================================== *)
(** * Fixed replies: ping and the empty message *)
(* ===================================================================== *)

Lemma pong_in_envelope :
  contains (data (twiml_response (py "pong"))) (py "pong").
Proof.
  exists (firstn 57 (data (twiml_response (py "pong")))),
         (skipn 61 (data (twiml_response (py "pong")))).
  vm_compute. reflexivity.
Qed.

(** C7 (as amended).  A POST whose normalized body is [ping] or [/ping]
    is answered 200 with the envelope around exactly [pong], and the
    logger is entered once, with the sender, the trimmed body in its
    original case, and [pong].  The sheet gains the one row
    [timestamp, sender or "-", body, "pong"] when the store takes it,
    and no row when the store fails.  Both files. *)
Theorem ping_reply_and_audit (env : Env) (request : Request) (w : World) :
  is_post request = true ->
  in_set (normalized env request) [py "ping"; py "/ping"] = true ->
  let sender := sender_of request in
  let body := body_of request in
  let r := [ strftime env (py "%Y-%m-%d %H:%M:%S");
             or_else sender (py "-"); body; py "pong" ] in
  status (twiml_response (py "pong")) = 200
  /\ contains (data (twiml_response (py "pong"))) (py "pong")
  /\ (exists d,
        Main.webhook env request w
          = (Returned (twiml_response (py "pong")), after w d)
        /\ logger_calls (trace d) = [(sender, body, py "pong")]
        /\ rows d = stored (store_outcome Main._get_sheet env r) r)
  /\ (exists d,
        CodigoComentado.webhook env request w
          = (Returned (twiml_response (py "pong")), after w d)
        /\ logger_calls (trace d) = [(sender, body, py "pong")]
        /\ rows d = stored (store_outcome CodigoComentado._get_sheet env r) r).
Proof.
  intros Hp Ht sender body r.
  assert (Hrow : audit_row env sender body (py "pong") = r).
  { unfold r, audit_row. now rewrite !or_else_empty. }
  split; [reflexivity|]. split; [apply pong_in_envelope|]. split.
  - destruct (Main_webhook_post env request Hp) as (reply & dr & E & C).
    cbv zeta in E, C. rewrite Ht in C. destruct C as [-> ->].
    apply (run_from _ _ _ w (Main_webhook_framed env request)) in E.
    eexists. split; [exact E|].
    destruct (Main_fixed_reply env request (py "pong")) as (L & _ & _ & R).
    fold sender body in L, R. rewrite Hrow in R. auto.
  - destruct (CC_webhook_post env request Hp) as (reply & dr & E & C).
    cbv zeta in E, C. rewrite Ht in C. destruct C as [-> ->].
    assert (Hlt : str_eqb (normalized env request) (py "/logtest") = false).
    { apply str_eqb_neq. intros Heq. rewrite Heq in Ht. vm_compute in Ht. discriminate. }
    rewrite Hlt in E.
    apply (run_from _ _ _ w (CC_webhook_framed env request)) in E.
    eexists. split; [exact E|].
    destruct (CC_fixed_reply env request (py "pong")) as (L & _ & _ & R).
    fold sender body in L, R. rewrite Hrow in R. auto.
Qed.

(** [" /Ping "] from [+1555] with the sheet reachable: one row. *)
Lemma ping_reply_and_audit_witness :
  exists d,
    CodigoComentado.webhook Sample.env_up (Sample.post " /Ping " "+1555") W0
      = (Returned (twiml_response (py "pong")), after W0 d)
    /\ logger_calls (trace d) = [(py "+1555", py "/Ping", py "pong")]
    /\ rows d = [(Sample.ws0, [Sample.now; py "+1555"; py "/Ping"; py "pong"])].
Proof.
  destruct (ping_reply_and_audit Sample.env_up (Sample.post " /Ping " "+1555") W0
              ltac:(vm_compute; reflexivity) ltac:(vm_compute; reflexivity))
    as (_ & _ & _ & d & E & L & R).
  exists d. split; [exact E|]. split.
  - rewrite L. vm_compute. reflexivity.
  - rewrite R. vm_compute. reflexivity.
Defined.

(** C7 (as stated) fails when the store is out of reach: with no
    spreadsheet identifier, [/ping] from [+1555] is answered [pong] and
    no row is appended; and an empty sender is written as ["-"]. *)
Lemma ping_row_counterexample :
  fst (CodigoComentado.webhook Sample.env_no_sheet (Sample.post "/ping" "+1555") W0)
    = Returned (twiml_response (py "pong"))
  /\ rows (snd (CodigoComentado.webhook Sample.env_no_sheet
                  (Sample.post "/ping" "+1555") W0)) = []
  /\ fst (Main.webhook Sample.env_no_sheet (Sample.post "/ping" "+1555") W0)
    = Returned (twiml_response (py "pong"))
  /\ rows (snd (Main.webhook Sample.env_no_sheet
                  (Sample.post "/ping" "+1555") W0)) = []
  /\ rows (snd (Main.webhook Sample.env_up (Sample.post "/ping" "") W0))
    = [(Sample.ws0, [Sample.now; py "-"; py "/ping"; py "pong"])].
Proof. parts; vm_compute; reflexivity. Qed.

(** C6.  A POST whose trimmed body is empty is answered with the fixed
    empty-message prompt, and the logger is entered exactly once, with
    an empty body and that prompt; the sender it is given is the [From]
    field, or [desconocido] when the form has none.  Both files. *)
Theorem empty_body_prompt_and_log (env : Env) (request : Request) (w : World) :
  is_post request = true ->
  body_of request = [] ->
  let prompt :=
    py "Hola! Recibí tu mensaje vacío. Probá enviarme algo de texto 🙂" in
  (exists d,
     Main.webhook env request w = (Returned (twiml_response prompt), after w d)
     /\ logger_calls (trace d) = [(sender_of request, [], prompt)])
  /\ (exists d,
     CodigoComentado.webhook env request w
       = (Returned (twiml_response prompt), after w d)
     /\ logger_calls (trace d) = [(sender_of request, [], prompt)])
  /\ (get (form request) (py "From") = None ->
      sender_of request = py "desconocido").
Proof.
  intros Hp Hb prompt.
  assert (Ht : normalized env request = []).
  { unfold normalized. rewrite Hb. reflexivity. }
  assert (H1 : in_set [] [py "ping"; py "/ping"] = false) by (vm_compute; reflexivity).
  assert (H2 : in_set [] [py "help"; py "/help"; py "ayuda"; py "/ayuda"] = false)
    by (vm_compute; reflexivity).
  assert (H3 : str_eqb [] (py "/logtest") = false) by (vm_compute; reflexivity).
  assert (H4 : startswith [] (py "/code") = false) by (vm_compute; reflexivity).
  split; [|split].
  - destruct (Main_webhook_post env request Hp) as (reply & dr & E & C).
    cbv zeta in E, C. rewrite Ht, H1, H2, H4, Hb in C. simpl in C.
    destruct C as [-> ->].
    apply (run_from _ _ _ w (Main_webhook_framed env request)) in E.
    eexists. split; [exact E|].
    destruct (Main_fixed_reply env request Main.empty_text) as (L & _).
    rewrite Hb in L. rewrite Hb. exact L.
  - destruct (CC_webhook_post env request Hp) as (reply & dr & E & C).
    cbv zeta in E, C. rewrite Ht, H1, H2, H3, H4, Hb in C. simpl in C.
    destruct C as [-> ->]. rewrite Ht, H3 in E.
    apply (run_from _ _ _ w (CC_webhook_framed env request)) in E.
    eexists. split; [exact E|].
    destruct (CC_fixed_reply env request CodigoComentado.empty_text) as (L & _).
    rewrite Hb in L. rewrite Hb. exact L.
  - intros Hf. unfold sender_of, get_default. now rewrite Hf.
Qed.

(** A body of blanks and no [From] field. *)
Lemma empty_body_prompt_and_log_witness :
  (exists d,
     Main.webhook Sample.env_up (Sample.post_anonymous "   ") W0
       = (Returned (twiml_response
            (py "Hola! Recibí tu mensaje vacío. Probá enviarme algo de texto 🙂")),
          after W0 d)
     /\ logger_calls (trace d)
        = [(sender_of (Sample.post_anonymous "   "), [],
            py "Hola! Recibí tu mensaje vacío. Probá enviarme algo de texto 🙂")])
  /\ sender_of (Sample.post_anonymous "   ") = py "desconocido".
Proof.
  destruct (empty_body_prompt_and_log Sample.env_up (Sample.post_anonymous "   ") W0
              ltac:(vm_compute; reflexivity) ltac:(vm_compute; reflexivity))
    as (HM & _ & HS).
  split; [exact HM|].
  apply HS. vm_compute. reflexivity.
Defined.

(* ===================================================================== *)
(** * The log-only probe *)
(* ===================================================================== *)

(** C3 (as amended).  In [codigo_comentado.py], a POST whose normalized
    body is [/logtest] enters the logger exactly once, from the router,
    with the body marker ["[/logtest]"] and the reply text
    ["OK log test"]; the handler does not log again, no composer is
    called, and the caller is answered a different fixed text,
    ["Log test ✅ (se intentó escribir en Sheets)."].  The sheet gains
    that one row when the store takes it and none otherwise.
    [main.py] has no such command: the body goes to the conversational
    composer and the handler logs the exchange once. *)
Theorem logtest_single_log (env : Env) (request : Request) (w : World) :
  is_post request = true ->
  normalized env request = py "/logtest" ->
  let sender := sender_of request in
  let body := body_of request in
  let r := [ strftime env (py "%Y-%m-%d %H:%M:%S");
             or_else sender (py "-"); py "[/logtest]"; py "OK log test" ] in
  (exists d,
     CodigoComentado.webhook env request w
       = (Returned (twiml_response
                      (py "Log test ✅ (se intentó escribir en Sheets).")),
          after w d)
     /\ logger_calls (trace d) = [(sender, py "[/logtest]", py "OK log test")]
     /\ code_calls (trace d) = [] /\ reply_calls (trace d) = []
     /\ rows d = stored (store_outcome CodigoComentado._get_sheet env r) r)
  /\ (exists reply d,
     Main.webhook env request w = (Returned (twiml_response reply), after w d)
     /\ reply_calls (trace d) = [body]
     /\ logger_calls (trace d) = [(sender, body, reply)]).
Proof.
  intros Hp Ht sender body r.
  assert (H1 : in_set (py "/logtest") [py "ping"; py "/ping"] = false)
    by (vm_compute; reflexivity).
  assert (H2 : in_set (py "/logtest") [py "help"; py "/help"; py "ayuda"; py "/ayuda"]
               = false) by (vm_compute; reflexivity).
  assert (H4 : startswith (py "/logtest") (py "/code") = false)
    by (vm_compute; reflexivity).
  split.
  - destruct (CC_webhook_post env request Hp) as (reply & dr & E & C).
    cbv zeta in E, C. rewrite Ht, H1, H2, str_eqb_refl in C.
    rewrite Ht, str_eqb_refl, after_W0_r in E. destruct C as [-> ->].
    apply (run_from _ _ _ w (CC_webhook_framed env request)) in E.
    eexists. split; [exact E|].
    destruct (CC_log_delta env (sender_of request) (py "[/logtest]") (py "OK log test"))
      as (L1 & L2 & L3 & R).
    fold sender in L1, L2, L3, R.
    assert (Hrow : audit_row env sender (py "[/logtest]") (py "OK log test") = r).
    { unfold r, audit_row. now rewrite !or_else_empty. }
    rewrite Hrow in R. auto.
  - destruct (Main_webhook_post env request Hp) as (reply & dr & E & C).
    cbv zeta in E, C. rewrite Ht, H1, H2, H4 in C.
    assert (Hb : truthy (body_of request) = true).
    { destruct (body_of request) eqn:Eb; [|reflexivity].
      unfold normalized in Ht. rewrite Eb in Ht. vm_compute in Ht. discriminate. }
    rewrite Hb in C. simpl in C.
    apply (run_from _ _ _ w (Main_webhook_framed env request)) in E.
    exists reply. eexists. split; [exact E|].
    destruct (Main_reply_then_log env (sender_of request) (body_of request) _ _ _ C)
      as (L & _ & Rc).
    auto.
Qed.

(** [/LogTest] from [+1555], sheet reachable: one row, with the marker. *)
Lemma logtest_single_log_witness :
  exists d,
    CodigoComentado.webhook Sample.env_up (Sample.post "/LogTest" "+1555") W0
      = (Returned (twiml_response
                     (py "Log test ✅ (se intentó escribir en Sheets).")),
         after W0 d)
    /\ logger_calls (trace d) = [(py "+1555", py "[/logtest]", py "OK log test")]
    /\ rows d = [(Sample.ws0,
                  [Sample.now; py "+1555"; py "[/logtest]"; py "OK log test"])].
Proof.
  destruct (logtest_single_log Sample.env_up (Sample.post "/LogTest" "+1555") W0
              ltac:(vm_compute; reflexivity) ltac:(vm_compute; reflexivity))
    as ((d & E & L & _ & _ & R) & _).
  exists d. split; [exact E|]. split.
  - rewrite L. vm_compute. reflexivity.
  - rewrite R. vm_compute. reflexivity.
Defined.

(** C3 (as stated) fails three ways.  In [codigo_comentado.py] the text
    given to the logger is not the reply returned; with the store out of
    reach the request appends nothing; and in [main.py] the logger gets
    the real body and the composer's reply, not a marker and a fixed
    text. *)
Lemma logtest_counterexample :
  logger_calls (trace (snd (CodigoComentado.webhook Sample.env_up
                              (Sample.post "/logtest" "+1555") W0)))
    = [(py "+1555", py "[/logtest]", py "OK log test")]
  /\ fst (CodigoComentado.webhook Sample.env_up (Sample.post "/logtest" "+1555") W0)
    = Returned (twiml_response (py "Log test ✅ (se intentó escribir en Sheets)."))
  /\ py "OK log test" <> py "Log test ✅ (se intentó escribir en Sheets)."
  /\ rows (snd (CodigoComentado.webhook Sample.env_no_sheet
                  (Sample.post "/logtest" "+1555") W0)) = []
  /\ logger_calls (trace (snd (Main.webhook Sample.env_up
                                 (Sample.post "/logtest" "+1555") W0)))
    = [(py "+1555", py "/logtest", py "Claro.")]
  /\ reply_calls (trace (snd (Main.webhook Sample.env_up
                                (Sample.post "/logtest" "+1555") W0)))
    = [py "/logtest"].
Proof.
  parts; try (vm_compute; reflexivity).
  vm_compute. discriminate.
Qed.

(* ===================================================================== *)
(** * The /code prefix *)
(* ===================================================================== *)

(** A text that starts with [/code] is none of the exact commands. *)
Lemma code_prefix_no_command (t : str) :
  startswith t (py "/code") = true ->
  in_set t [py "ping"; py "/ping"] = false
  /\ in_set t [py "help"; py "/help"; py "ayuda"; py "/ayuda"] = false
  /\ str_eqb t (py "/logtest") = false.
Proof.
  intros H. apply startswith_app in H as [r ->].
  parts; vm_compute; reflexivity.
Qed.

Section CodeRoute.

Variable env : Env.
Variable request : Request.
Hypothesis Hpost : is_post request = true.
Hypothesis Hcode : startswith (normalized env request) (py "/code") = true.

Lemma Main_code_route :
  exists reply d,
    Main.webhook env request W0 = (Returned (twiml_response reply), d)
    /\ logger_calls (trace d) = [(sender_of request, body_of request, reply)]
    /\ code_calls (trace d)
       = [or_else (strip (skipn 5 (body_of request))) (py "python ejemplo básico")]
    /\ reply_calls (trace d) = [].
Proof.
  destruct (code_prefix_no_command _ Hcode) as (H1 & H2 & _).
  destruct (Main_webhook_post env request Hpost) as (reply & dr & E & C).
  cbv zeta in E, C. rewrite H1, H2, Hcode in C.
  exists reply. eexists. split; [exact E|].
  apply (Main_code_then_log env _ _ _ _ _ C).
Qed.

Lemma CC_code_route :
  exists reply d,
    CodigoComentado.webhook env request W0 = (Returned (twiml_response reply), d)
    /\ logger_calls (trace d) = [(sender_of request, body_of request, reply)]
    /\ code_calls (trace d)
       = [or_else (strip (skipn 5 (body_of request)))
                  (py "python: imprimir Hola Mundo")]
    /\ reply_calls (trace d) = [].
Proof.
  destruct (code_prefix_no_command _ Hcode) as (H1 & H2 & H3).
  destruct (CC_webhook_post env request Hpost) as (reply & dr & E & C).
  cbv zeta in E, C. rewrite H1, H2, H3, Hcode in C. rewrite H3 in E.
  exists reply. eexists. split; [exact E|].
  apply (CC_code_then_log env _ _ _ _ _ C).
Qed.

End CodeRoute.

(** For an ASCII body the five code points dropped are the command word
    itself, in whatever case it was typed. *)
Lemma lower_from_ascii (db : unicode_db) (whole s : str) (i : nat) :
  forallb (fun c => c <? 128) s = true ->
  lower_from db whole i s = map ascii_lower s.
Proof.
  revert i; induction s as [|c s IH]; intros i H; simpl in *; [reflexivity|].
  apply andb_true_iff in H as [Hc Hs]. rewrite Hc. simpl. now rewrite IH.
Qed.

Lemma ascii_code_prefix (db : unicode_db) (body : str) :
  forallb (fun c => c <? 128) body = true ->
  startswith (lower db body) (py "/code") = true ->
  exists p, body = p ++ skipn 5 body
            /\ List.length p = 5%nat /\ map ascii_lower p = py "/code".
Proof.
  intros Ha Hs. unfold lower in Hs. rewrite lower_from_ascii in Hs by assumption.
  apply startswith_app in Hs as [r Hr].
  exists (firstn 5 body).
  assert (Hl : (5 <= List.length body)%nat).
  { apply (f_equal (@List.length _)) in Hr.
    rewrite length_map, length_app in Hr.
    assert (Hc : List.length (py "/code") = 5%nat) by (vm_compute; reflexivity).
    rewrite Hc in Hr. lia. }
  split; [symmetry; apply firstn_skipn|].
  split; [apply firstn_length_le; exact Hl|].
  rewrite <- firstn_map, Hr.
  assert (Hc : List.length (py "/code") = 5%nat) by (vm_compute; reflexivity).
  rewrite <- Hc at 1. now rewrite firstn_app, Nat.sub_diag, firstn_all, app_nil_r.
Qed.

(** C4 (as amended).  When the normalized body starts with [/code], the
    router drops the first five code points of the trimmed body, trims
    what remains, and hands it to the code composer; when nothing
    remains the composer is handed the router's default, which is
    ["python: imprimir Hola Mundo"] in [codigo_comentado.py] and
    ["python ejemplo básico"] in [main.py]. *)
Theorem code_prompt_prefix_stripped (env : Env) (request : Request) (w : World) :
  is_post request = true ->
  startswith (normalized env request) (py "/code") = true ->
  let rest := strip (skipn 5 (body_of request)) in
  (exists reply d,
     CodigoComentado.webhook env request w
       = (Returned (twiml_response reply), after w d)
     /\ code_calls (trace d)
        = [if truthy rest then rest else py "python: imprimir Hola Mundo"])
  /\ (exists reply d,
     Main.webhook env request w = (Returned (twiml_response reply), after w d)
     /\ code_calls (trace d)
        = [if truthy rest then rest else py "python ejemplo básico"]).
Proof.
  intros Hp Hc rest. split.
  - destruct (CC_code_route env request Hp Hc) as (reply & d & E & _ & C & _).
    apply (run_from _ _ _ w (CC_webhook_framed env request)) in E.
    exists reply, d. split; [exact E|exact C].
  - destruct (Main_code_route env request Hp Hc) as (reply & d & E & _ & C & _).
    apply (run_from _ _ _ w (Main_webhook_framed env request)) in E.
    exists reply, d. split; [exact E|exact C].
Qed.

(** ["/CODE   bash: ls  "] hands ["bash: ls"] to the composer. *)
Lemma code_prompt_prefix_stripped_witness :
  exists reply d,
    CodigoComentado.webhook Sample.env_up (Sample.post "/CODE   bash: ls  " "+1555") W0
      = (Returned (twiml_response reply), after W0 d)
    /\ code_calls (trace d) = [py "bash: ls"].
Proof.
  destruct (code_prompt_prefix_stripped Sample.env_up
              (Sample.post "/CODE   bash: ls  " "+1555") W0
              ltac:(vm_compute; reflexivity) ltac:(vm_compute; reflexivity))
    as ((reply & d & E & C) & _).
  exists reply, d. split; [exact E|].
  rewrite C. vm_compute. reflexivity.
Defined.

(** C4 (as stated) fails on [main.py]: a bare [/code] hands the composer
    ["python ejemplo básico"], not ["python: imprimir Hola Mundo"]. *)
Lemma code_default_counterexample :
  code_calls (trace (snd (Main.webhook Sample.env_up (Sample.post "/code" "+1555") W0)))
    = [py "python ejemplo básico"]
  /\ py "python ejemplo básico" <> py "python: imprimir Hola Mundo".
Proof.
  split; [vm_compute; reflexivity|].
  vm_compute. discriminate.
Qed.

(** C10.  The [/code] match asks for no delimiter.  A normalized body
    that starts with the five code points [/code] is never one of the
    exact commands; the router hands it to the code composer, once, and
    never to the conversational composer.  The prompt is what follows
    the first five code points of the body, trimmed (the router's default
    when that is empty); when the sixth code point is not whitespace, as
    in ["/codear algo"], the prompt is exactly everything after the
    five.  Both files. *)
Theorem code_prefix_needs_no_delimiter (env : Env) (request : Request)
    (w : World) :
  is_post request = true ->
  startswith (normalized env request) (py "/code") = true ->
  let t := normalized env request in
  let after5 := skipn 5 (body_of request) in
  (in_set t [py "ping"; py "/ping"] = false
   /\ in_set t [py "help"; py "/help"; py "ayuda"; py "/ayuda"] = false
   /\ str_eqb t (py "/logtest") = false)
  /\ (exists reply d,
     Main.webhook env request w = (Returned (twiml_response reply), after w d)
     /\ code_calls (trace d) = [or_else (strip after5) (py "python ejemplo básico")]
     /\ reply_calls (trace d) = []
     /\ (forall c r, after5 = c :: r -> isspace c = false ->
         code_calls (trace d) = [after5]))
  /\ (exists reply d,
     CodigoComentado.webhook env request w
       = (Returned (twiml_response reply), after w d)
     /\ code_calls (trace d)
        = [or_else (strip after5) (py "python: imprimir Hola Mundo")]
     /\ reply_calls (trace d) = []
     /\ (forall c r, after5 = c :: r -> isspace c = false ->
         code_calls (trace d) = [after5])).
Proof.
  intros Hp Hc t after5.
  assert (Hfix : forall c r dflt, after5 = c :: r -> isspace c = false ->
            or_else (strip after5) dflt = after5).
  { intros c r dflt Ha Hsp. unfold after5 in *. unfold body_of in *.
    rewrite (strip_suffix_fixed _ _ _ _ Ha Hsp). rewrite Ha. reflexivity. }
  split; [apply code_prefix_no_command; exact Hc|]. split.
  - destruct (Main_code_route env request Hp Hc) as (reply & d & E & _ & C & R).
    apply (run_from _ _ _ w (Main_webhook_framed env request)) in E.
    exists reply, d. fold after5 in C. parts; auto.
    intros c r Ha Hsp. rewrite C. f_equal. eapply Hfix; eassumption.
  - destruct (CC_code_route env request Hp Hc) as (reply & d & E & _ & C & R).
    apply (run_from _ _ _ w (CC_webhook_framed env request)) in E.
    exists reply, d. fold after5 in C. parts; auto.
    intros c r Ha Hsp. rewrite C. f_equal. eapply Hfix; eassumption.
Qed.

(** ["/codear algo"] reaches the code composer with ["ar algo"]. *)
Lemma code_prefix_needs_no_delimiter_witness :
  exists reply d,
    Main.webhook Sample.env_up (Sample.post "/codear algo" "+1555") W0
      = (Returned (twiml_response reply), after W0 d)
    /\ code_calls (trace d) = [py "ar algo"]
    /\ reply_calls (trace d) = [].
Proof.
  destruct (code_prefix_needs_no_delimiter Sample.env_up
              (Sample.post "/codear algo" "+1555") W0
              ltac:(vm_compute; reflexivity) ltac:(vm_compute; reflexivity))
    as (_ & (reply & d & E & _ & R & F) & _).
  exists reply, d. split; [exact E|]. split; [|exact R].
  rewrite (F 97 (py "r algo") ltac:(vm_compute; reflexivity)
             ltac:(vm_compute; reflexivity)).
  vm_compute. reflexivity.
Defined.

(* ===================================================================== *)
(** * What of the body reaches the logger and the composers *)
(* ===================================================================== *)

(** C5 (as amended).  The lowercase form is used only to classify.  What
    the logger records as the body, and what the conversational composer
    is given, is the trimmed body: the text of the form with the
    whitespace at its two ends removed and everything between, casing
    and inner whitespace, as it came.  The code composer is given the
    trimmed remainder after the first five code points, or the default.
    The one exception is [/logtest] in [codigo_comentado.py], which
    records its marker instead of the body. *)
Theorem body_trimmed_case_kept (env : Env) (request : Request) (w : World) :
  is_post request = true ->
  let raw := raw_body_of request in
  let body := body_of request in
  let sender := sender_of request in
  let prompt := strip (skipn 5 body) in
  (exists pre post,
     raw = pre ++ body ++ post
     /\ forallb isspace pre = true /\ forallb isspace post = true)
  /\ (exists reply d,
     Main.webhook env request w = (Returned (twiml_response reply), after w d)
     /\ logger_calls (trace d) = [(sender, body, reply)]
     /\ (reply_calls (trace d) = [] \/ reply_calls (trace d) = [body])
     /\ (code_calls (trace d) = []
         \/ code_calls (trace d) = [or_else prompt (py "python ejemplo básico")]))
  /\ (exists reply d,
     CodigoComentado.webhook env request w
       = (Returned (twiml_response reply), after w d)
     /\ logger_calls (trace d)
        = [if str_eqb (normalized env request) (py "/logtest")
           then (sender, py "[/logtest]", py "OK log test")
           else (sender, body, reply)]
     /\ (reply_calls (trace d) = [] \/ reply_calls (trace d) = [body])
     /\ (code_calls (trace d) = []
         \/ code_calls (trace d)
            = [or_else prompt (py "python: imprimir Hola Mundo")])).
Proof.
  intros Hp raw body sender prompt.
  split; [apply strip_split|]. split.
  - destruct (Main_webhook_post env request Hp) as (reply & dr & E & C).
    cbv zeta in E, C.
    apply (run_from _ _ _ w (Main_webhook_framed env request)) in E.
    exists reply. eexists. split; [exact E|].
    destruct (in_set _ [py "ping"; py "/ping"]).
    { destruct C as [-> ->].
      destruct (Main_fixed_reply env request (py "pong")) as (L & Cc & Rc & _). auto. }
    destruct (in_set _ [py "help"; py "/help"; py "ayuda"; py "/ayuda"]).
    { destruct C as [-> ->].
      destruct (Main_fixed_reply env request Main.help_text) as (L & Cc & Rc & _). auto. }
    destruct (startswith _ (py "/code")).
    { destruct (Main_code_then_log env sender body _ _ _ C) as (L & Cc & Rc). auto. }
    destruct (negb (truthy (body_of request))).
    { destruct C as [-> ->].
      destruct (Main_fixed_reply env request Main.empty_text) as (L & Cc & Rc & _). auto. }
    destruct (Main_reply_then_log env sender body _ _ _ C) as (L & Cc & Rc). auto.
  - destruct (CC_webhook_post env request Hp) as (reply & dr & E & C).
    cbv zeta in E, C.
    apply (run_from _ _ _ w (CC_webhook_framed env request)) in E.
    exists reply. eexists. split; [exact E|].
    destruct (in_set _ [py "ping"; py "/ping"]) eqn:H1.
    { assert (Hlt : str_eqb (normalized env request) (py "/logtest") = false).
      { apply str_eqb_neq. intros Heq. rewrite Heq in H1. vm_compute in H1. discriminate. }
      rewrite Hlt. destruct C as [-> ->].
      destruct (CC_fixed_reply env request (py "pong")) as (L & Cc & Rc & _). auto. }
    destruct (in_set _ [py "help"; py "/help"; py "ayuda"; py "/ayuda"]) eqn:H2.
    { assert (Hlt : str_eqb (normalized env request) (py "/logtest") = false).
      { apply str_eqb_neq. intros Heq. rewrite Heq in H2. vm_compute in H2. discriminate. }
      rewrite Hlt. destruct C as [-> ->].
      destruct (CC_fixed_reply env request CodigoComentado.help_text)
        as (L & Cc & Rc & _). auto. }
    destruct (str_eqb _ (py "/logtest")).
    { destruct C as [-> ->]. rewrite after_W0_r.
      destruct (CC_log_delta env sender (py "[/logtest]") (py "OK log test"))
        as (L & Cc & Rc & _). auto. }
    destruct (startswith _ (py "/code")).
    { destruct (CC_code_then_log env sender body _ _ _ C) as (L & Cc & Rc). auto. }
    destruct (negb (truthy (body_of request))).
    { destruct C as [-> ->].
      destruct (CC_fixed_reply env request CodigoComentado.empty_text)
        as (L & Cc & Rc & _). auto. }
    destruct (CC_reply_then_log env sender body _ _ _ C) as (L & Cc & Rc). auto.
Qed.

(** ["  Hola  Mundo "] is logged and composed as ["Hola  Mundo"]. *)
Lemma body_trimmed_case_kept_witness :
  exists reply d,
    CodigoComentado.webhook Sample.env_up (Sample.post "  Hola  Mundo " "+1555") W0
      = (Returned (twiml_response reply), after W0 d)
    /\ logger_calls (trace d) = [(py "+1555", py "Hola  Mundo", reply)].
Proof.
  destruct (body_trimmed_case_kept Sample.env_up
              (Sample.post "  Hola  Mundo " "+1555") W0
              ltac:(vm_compute; reflexivity))
    as (_ & _ & (reply & d & E & L & _)).
  exists reply, d. split; [exact E|].
  rewrite L. vm_compute. reflexivity.
Defined.

(** C5 (as stated) fails: the whitespace around the body is not kept.
    ["  Hola  "] is recorded, and handed to the composer, as ["Hola"]. *)
Lemma body_whitespace_counterexample :
  raw_body_of (Sample.post "  Hola  " "+1555") = py "  Hola  "
  /\ logger_calls (trace (snd (CodigoComentado.webhook Sample.env_up
                                 (Sample.post "  Hola  " "+1555") W0)))
    = [(py "+1555", py "Hola", py "Claro.")]
  /\ reply_calls (trace (snd (CodigoComentado.webhook Sample.env_up
                                (Sample.post "  Hola  " "+1555") W0)))
    = [py "Hola"]
  /\ logger_calls (trace (snd (Main.webhook Sample.env_up
                                 (Sample.post "  Hola  " "+1555") W0)))
    = [(py "+1555", py "Hola", py "Claro.")]
  /\ reply_calls (trace (snd (Main.webhook Sample.env_up
                                (Sample.post "  Hola  " "+1555") W0)))
    = [py "Hola"]
  /\ py "Hola" <> py "  Hola  ".
Proof.
  parts; try (vm_compute; reflexivity).
  vm_compute. discriminate.
Qed.

(* ===================================================================== *)
(** * Checks of the runtime model on the source's own literals *)
(* ===================================================================== *)

Example py_ascii : py "/code" = [47; 99; 111; 100; 101].
Proof. vm_compute. reflexivity. Qed.

Example py_utf8 :
  py "vacío 🙂 ✅ …" = [118; 97; 99; 237; 111; 32; 128578; 32; 9989; 32; 8230].
Proof. vm_compute. reflexivity. Qed.

Example strip_keeps_inside : strip (py "  Hola  Mundo ") = py "Hola  Mundo".
Proof. vm_compute. reflexivity. Qed.

Example lower_ascii : lower Sample.db0 (py "/CODE Bash") = py "/code bash".
Proof. vm_compute. reflexivity. Qed.

Example envelope_of_pong :
  Twiml.to_str (Twiml.message Twiml.new (py "pong"))
  = py "<?xml version=" ++ DQUOTE ++ py "1.0" ++ DQUOTE ++ py " encoding="
    ++ DQUOTE ++ py "UTF-8" ++ DQUOTE
    ++ py "?><Response><Message>pong</Message></Response>".
Proof. vm_compute. reflexivity. Qed.

(* ===================================================================== *)
(** * Beyond the claims: the exact calls of the sheet side *)
(* ===================================================================== *)

Arguments audit_row : simpl never.

Section SheetCalls.

Variable env : Env.

Lemma flat_map_none {A B} (f : A -> list B) (P : A -> bool) (l : list A) :
  (forall a, P a = true -> f a = []) ->
  forallb P l = true -> flat_map f l = [].
Proof.
  intros Hf. induction l as [|a l IH]; simpl; [reflexivity|].
  intros H. apply andb_true_iff in H as [Ha Hl].
  now rewrite (Hf a Ha), IH.
Qed.

(** A stretch of sheet accesses holds no provider call, no append and no
    entry into the logger or a composer. *)
Lemma access_only (tr : list Event) :
  forallb access_event tr = true ->
  provider_calls tr = [] /\ append_calls tr = [] /\ quiet tr.
Proof.
  intros H. unfold provider_calls, append_calls, quiet, logger_calls,
    code_calls, reply_calls.
  parts; apply (flat_map_none _ access_event); try exact H;
    intros [] Ha; try discriminate; reflexivity.
Qed.

Lemma Main_get_sheet_access :
  forallb access_event (trace (snd (Main._get_sheet env W0))) = true
  /\ (List.length (adc_calls (trace (snd (Main._get_sheet env W0)))) <= 1)%nat
  /\ (List.length (open_calls (trace (snd (Main._get_sheet env W0)))) <= 1)%nat.
Proof.
  unfold Main._get_sheet, Main._get_google_creds. run.
  answers; parts; simpl; auto.
Qed.

Lemma CC_get_sheet_access :
  forallb access_event (trace (snd (CodigoComentado._get_sheet env W0))) = true
  /\ (List.length (adc_calls (trace (snd (CodigoComentado._get_sheet env W0)))) <= 1)%nat
  /\ (List.length (open_calls (trace (snd (CodigoComentado._get_sheet env W0)))) <= 1)%nat.
Proof.
  unfold CodigoComentado._get_sheet, CodigoComentado._get_google_creds. run.
  answers; parts; simpl; auto.
Qed.

(** The logger's trace: its entry, the accesses of [get_sheet], and the
    append when the sheet was opened. *)
Lemma log_message_trace_gen (get_sheet : Env -> M Worksheet)
    (body : M unit) (s b r : str) :
  framed (get_sheet env) ->
  body = (ws <- get_sheet env ;;
          ts <- time_strftime env (py "%Y-%m-%d %H:%M:%S") ;;
          append_row env ws
            [ts; or_else s (py "-"); or_else b (py ""); or_else r (py "")]
            (py "RAW")) ->
  trace (snd (enter (EnterLogMessage s b r) (try_except body (fun _ => ret tt)) W0))
  = EnterLogMessage s b r
    :: trace (snd (get_sheet env W0))
    ++ match fst (get_sheet env W0) with
       | Returned ws => [CallAppendRow ws (audit_row env s b r) (py "RAW")]
       | Raised _ => []
       end.
Proof.
  intros Hf ->. unfold enter, try_except, bind.
  rewrite (Hf (emit (EnterLogMessage s b r) W0)).
  destruct (get_sheet env W0) as [[ws|e] d]; simpl.
  - unfold time_strftime, ret, append_row.
    change [strftime env (py "%Y-%m-%d %H:%M:%S"); or_else s (py "-");
            or_else b (py ""); or_else r (py "")]
      with (audit_row env s b r).
    destruct (append_row_answer env ws (audit_row env s b r) (py "RAW"))
      as [[]|e]; reflexivity.
  - now rewrite app_nil_r.
Qed.

Lemma Main_log_trace (s b r : str) :
  trace (snd (Main.log_message env s b r W0))
  = EnterLogMessage s b r
    :: trace (snd (Main._get_sheet env W0))
    ++ match fst (Main._get_sheet env W0) with
       | Returned ws => [CallAppendRow ws (audit_row env s b r) (py "RAW")]
       | Raised _ => []
       end.
Proof.
  apply log_message_trace_gen; [apply Main_get_sheet_framed|reflexivity].
Qed.

Lemma CC_log_trace (s b r : str) :
  trace (snd (CodigoComentado.log_message env s b r W0))
  = EnterLogMessage s b r
    :: trace (snd (CodigoComentado._get_sheet env W0))
    ++ match fst (CodigoComentado._get_sheet env W0) with
       | Returned ws => [CallAppendRow ws (audit_row env s b r) (py "RAW")]
       | Raised _ => []
       end.
Proof.
  apply log_message_trace_gen; [apply CC_get_sheet_framed|reflexivity].
Qed.

End SheetCalls.

(* ===================================================================== *)
(** * Beyond the claims: opening the sheet *)
(* ===================================================================== *)

(** X1.  With no spreadsheet identifier configured, nothing is asked of
    the outside: the logger returns at once, having resolved no
    credential and opened nothing, and the debug probe answers 500 with
    the text of the configuration error, which differs between the two
    files. *)
Theorem no_sheet_id_no_outside_call (env : Env) (request : Request)
    (s b r : str) (w : World) :
  getenv env (py "SHEET_ID") (py "") = [] ->
  Main.log_message env s b r w = (Returned tt, emit (EnterLogMessage s b r) w)
  /\ CodigoComentado.log_message env s b r w
     = (Returned tt, emit (EnterLogMessage s b r) w)
  /\ (is_post request = false -> debug_flag request = true ->
      Main.webhook env request w
        = (Returned (make_response (py "debug error: " ++ py "SHEET_ID vacío") 500), w)
      /\ CodigoComentado.webhook env request w
        = (Returned (make_response
             (py "debug error: "
              ++ py "SHEET_ID vacío. Define la variable de entorno SHEET_ID.") 500),
           w)).
Proof.
  intros H. parts.
  - unfold Main.log_message, Main._get_sheet, Main.SHEET_ID. rewrite H.
    reflexivity.
  - unfold CodigoComentado.log_message, CodigoComentado._get_sheet,
      CodigoComentado.SHEET_ID. rewrite H. reflexivity.
  - intros Hm Hd. unfold is_post in Hm. unfold debug_flag in Hd. split.
    + unfold Main.webhook, Main._get_sheet, Main.SHEET_ID.
      rewrite H, Hm, Hd. reflexivity.
    + unfold CodigoComentado.webhook, CodigoComentado._get_sheet,
        CodigoComentado.SHEET_ID.
      rewrite H, Hm, Hd. reflexivity.
Qed.

Lemma no_sheet_id_no_outside_call_witness :
  Main.log_message Sample.env_no_sheet (py "+1555") (py "hola") (py "Claro.") W0
    = (Returned tt,
       emit (EnterLogMessage (py "+1555") (py "hola") (py "Claro.")) W0)
  /\ Main.webhook Sample.env_no_sheet (Sample.get_request [(py "debug", py "1")]) W0
    = (Returned (make_response (py "debug error: " ++ py "SHEET_ID vacío") 500), W0).
Proof.
  destruct (no_sheet_id_no_outside_call Sample.env_no_sheet
              (Sample.get_request [(py "debug", py "1")])
              (py "+1555") (py "hola") (py "Claro.") W0
              ltac:(vm_compute; reflexivity)) as (L & _ & D).
  split; [exact L|].
  apply D; vm_compute; reflexivity.
Defined.

(** X2.  When the identifier is set, the ambient identity resolves, and
    the client opens the spreadsheet, the sheet is opened once, by that
    identifier, with the ambient credential and without reading a
    keyfile.  [main.py] then takes the first worksheet;
    [codigo_comentado.py] takes the worksheet named by [SHEET_TAB], and
    the first one only when [SHEET_TAB] is empty or unset. *)
Theorem get_sheet_selects_tab (env : Env) (w : World)
    (c : Credentials) (p : option str) (cl : Client) (sh : Spreadsheet) :
  let id := getenv env (py "SHEET_ID") (py "") in
  let tab := getenv env (py "SHEET_TAB") (py "") in
  let scopes := [ py "https://www.googleapis.com/auth/spreadsheets";
                  py "https://www.googleapis.com/auth/drive" ] in
  truthy id = true ->
  google_auth_default env scopes = Returned (c, p) ->
  gspread_authorize env c = Returned cl ->
  open_by_key env cl id = Returned sh ->
  Main._get_sheet env w
    = (sheet1 sh, emit (CallOpenByKey id) (emit (CallAuthDefault scopes) w))
  /\ CodigoComentado._get_sheet env w
    = ((if truthy tab then worksheet sh tab else sheet1 sh),
       emit (CallOpenByKey id) (emit (CallAuthDefault scopes) w)).
Proof.
  intros id tab scopes Hid Hadc Hauth Hopen. split.
  - unfold Main._get_sheet. fold id. unfold Main.SHEET_ID. fold id.
    rewrite Hid. change (negb true) with false. cbv iota. unfold bind at 1.
    rewrite Main_get_google_creds_run. change Main.scopes with scopes.
    rewrite Hadc. simpl. run. rewrite Hauth, Hopen. simpl.
    destruct (sheet1 sh); reflexivity.
  - unfold CodigoComentado._get_sheet, CodigoComentado.SHEET_ID,
      CodigoComentado.SHEET_TAB. fold id tab.
    rewrite Hid. change (negb true) with false. cbv iota. unfold bind at 1.
    rewrite CC_get_google_creds_run. change CodigoComentado.scopes with scopes.
    rewrite Hadc. simpl. run. rewrite Hauth, Hopen. simpl.
    destruct (truthy tab); [destruct (worksheet sh tab)|destruct (sheet1 sh)];
      reflexivity.
Qed.

Lemma get_sheet_selects_tab_witness :
  CodigoComentado._get_sheet Sample.env_up W0
  = (Returned Sample.ws0,
     emit (CallOpenByKey (py "1R"))
       (emit (CallAuthDefault CodigoComentado.scopes) W0)).
Proof.
  apply (proj2 (get_sheet_selects_tab Sample.env_up W0
                  {| cred_id := 1 |} (Some (py "whatsapp-bot-emanuel"))
                  {| auth := {| cred_id := 1 |} |} Sample.sh0
                  ltac:(vm_compute; reflexivity) eq_refl eq_refl eq_refl)).
Defined.

(** X3.  With the identifier set and neither credential source working,
    the logger still returns: it has tried the ambient identity, then
    the keyfile, and stopped there; the spreadsheet is never opened and
    no row is appended.  The debug probe in the same state answers 500
    with the keyfile's error, not the ambient one. *)
Theorem no_credentials_no_row (env : Env) (request : Request)
    (s b r : str) (w : World) (e1 e2 : Exception) :
  let scopes := [ py "https://www.googleapis.com/auth/spreadsheets";
                  py "https://www.googleapis.com/auth/drive" ] in
  let path_main := path_join (module_dir env) (py "service_account.json") in
  let path_cc :=
    path_join (module_dir env)
      (getenv env (py "SHEETS_CREDS_FILE") (py "service_account.json")) in
  truthy (getenv env (py "SHEET_ID") (py "")) = true ->
  google_auth_default env scopes = Raised e1 ->
  (from_service_account_file env path_main scopes = Raised e2 ->
     Main.log_message env s b r w
       = (Returned tt,
          emit (CallServiceAccountFile path_main scopes)
            (emit (CallAuthDefault scopes) (emit (EnterLogMessage s b r) w)))
     /\ (is_post request = false -> debug_flag request = true ->
         Main.webhook env request w
           = (Returned (make_response (py "debug error: " ++ exc_str e2) 500),
              emit (CallServiceAccountFile path_main scopes)
                (emit (CallAuthDefault scopes) w))))
  /\ (from_service_account_file env path_cc scopes = Raised e2 ->
     CodigoComentado.log_message env s b r w
       = (Returned tt,
          emit (CallServiceAccountFile path_cc scopes)
            (emit (CallAuthDefault scopes) (emit (EnterLogMessage s b r) w)))
     /\ (is_post request = false -> debug_flag request = true ->
         CodigoComentado.webhook env request w
           = (Returned (make_response (py "debug error: " ++ exc_str e2) 500),
              emit (CallServiceAccountFile path_cc scopes)
                (emit (CallAuthDefault scopes) w)))).
Proof.
  intros scopes path_main path_cc Hid Hadc. split; intros Hkey.
  - assert (G : forall w0, Main._get_sheet env w0
                = (Raised e2, emit (CallServiceAccountFile path_main scopes)
                                (emit (CallAuthDefault scopes) w0))).
    { intros w0. unfold Main._get_sheet, Main.SHEET_ID. rewrite Hid.
      change (negb true) with false. cbv iota. unfold bind at 1.
      rewrite Main_get_google_creds_run. change Main.scopes with scopes.
      rewrite Hadc. cbv zeta.
      change Main.SHEETS_CREDS_FILE with (py "service_account.json").
      fold path_main. rewrite Hkey. reflexivity. }
    split.
    + unfold Main.log_message, enter, try_except, bind. rewrite G. reflexivity.
    + intros Hm Hd. unfold Main.webhook. unfold is_post in Hm.
      unfold debug_flag in Hd. rewrite Hm, Hd. change (negb false) with true. cbv iota.
      unfold try_except, bind. rewrite G. reflexivity.
  - assert (G : forall w0, CodigoComentado._get_sheet env w0
                = (Raised e2, emit (CallServiceAccountFile path_cc scopes)
                                (emit (CallAuthDefault scopes) w0))).
    { intros w0. unfold CodigoComentado._get_sheet, CodigoComentado.SHEET_ID.
      rewrite Hid. change (negb true) with false. cbv iota. unfold bind at 1.
      rewrite CC_get_google_creds_run. change CodigoComentado.scopes with scopes.
      rewrite Hadc. cbv zeta.
      change (CodigoComentado.SHEETS_CREDS_FILE env)
        with (getenv env (py "SHEETS_CREDS_FILE") (py "service_account.json")).
      fold path_cc. rewrite Hkey. reflexivity. }
    split.
    + unfold CodigoComentado.log_message, enter, try_except, bind.
      rewrite G. reflexivity.
    + intros Hm Hd. unfold CodigoComentado.webhook. unfold is_post in Hm.
      unfold debug_flag in Hd. rewrite Hm, Hd. change (negb false) with true. cbv iota.
      unfold try_except, bind. rewrite G. reflexivity.
Qed.

Lemma no_credentials_no_row_witness :
  rows (snd (Main.log_message Sample.env_no_creds
               (py "+1555") (py "hola") (py "Claro.") W0)) = []
  /\ open_calls (trace (snd (Main.log_message Sample.env_no_creds
               (py "+1555") (py "hola") (py "Claro.") W0))) = [].
Proof.
  destruct (proj1 (no_credentials_no_row Sample.env_no_creds
              (Sample.get_request []) (py "+1555") (py "hola") (py "Claro.") W0
              (Sample.boom "no ADC") (Sample.boom "no such file")
              ltac:(vm_compute; reflexivity) eq_refl) eq_refl) as [L _].
  rewrite L. split; reflexivity.
Defined.

(* ===================================================================== *)
(** * Beyond the claims: what a request may add to the world *)
(* ===================================================================== *)

Section Bounds.

Variable env : Env.

Lemma calls_after (w d : World) :
  provider_calls (trace (after w d))
    = provider_calls (trace w) ++ provider_calls (trace d)
  /\ append_calls (trace (after w d))
    = append_calls (trace w) ++ append_calls (trace d).
Proof.
  unfold after, provider_calls, append_calls; simpl.
  now rewrite !flat_map_app.
Qed.

(** A sheet write: accesses, then the append when the sheet opened. *)
Lemma write_trace_calls (tg : list Event) (o : outcome Worksheet) (r : row) :
  forallb access_event tg = true ->
  let tr := tg ++ match o with
                  | Returned ws => [CallAppendRow ws r (py "RAW")]
                  | Raised _ => []
                  end in
  provider_calls tr = []
  /\ (List.length (append_calls tr) <= 1)%nat
  /\ Forall (fun c => snd c = py "RAW") (append_calls tr)
  /\ quiet tr.
Proof.
  intros Hg tr. destruct (access_only tg Hg) as (P & A & Q). unfold tr.
  unfold provider_calls, append_calls in *.
  rewrite !flat_map_app, P, A.
  destruct o as [ws|e]; simpl; parts; auto;
    apply quiet_app; auto; repeat split.
Qed.

Lemma stored_bounds (o : outcome Worksheet) (s b r : str) :
  (List.length (stored o (audit_row env s b r)) <= 1)%nat
  /\ Forall (fun wr => List.length (snd wr) = 4%nat)
            (stored o (audit_row env s b r)).
Proof. destruct o; simpl; split; auto. Qed.

Lemma Main_log_bounded (s b r : str) :
  let dl := snd (Main.log_message env s b r W0) in
  provider_calls (trace dl) = [] /\ bounded dl.
Proof.
  intros dl. unfold bounded, dl. rewrite Main_log_trace.
  destruct (Main_get_sheet_access env) as (Hg & _).
  destruct (write_trace_calls _ (fst (Main._get_sheet env W0))
              (audit_row env s b r) Hg) as (P & A & F & _).
  destruct (Main_log_delta env s b r) as (_ & _ & _ & R).
  cbv zeta in R. rewrite R.
  destruct (stored_bounds
              (store_outcome Main._get_sheet env (audit_row env s b r)) s b r).
  change (provider_calls (EnterLogMessage s b r :: ?x)) with (provider_calls x).
  unfold provider_calls, append_calls in *. simpl flat_map.
  rewrite P. parts; auto.
Qed.

Lemma CC_log_bounded (s b r : str) :
  let dl := snd (CodigoComentado.log_message env s b r W0) in
  provider_calls (trace dl) = [] /\ bounded dl.
Proof.
  intros dl. unfold bounded, dl. rewrite CC_log_trace.
  destruct (CC_get_sheet_access env) as (Hg & _).
  destruct (write_trace_calls _ (fst (CodigoComentado._get_sheet env W0))
              (audit_row env s b r) Hg) as (P & A & F & _).
  destruct (CC_log_delta env s b r) as (_ & _ & _ & R).
  cbv zeta in R. rewrite R.
  destruct (stored_bounds
              (store_outcome CodigoComentado._get_sheet env (audit_row env s b r))
              s b r).
  unfold provider_calls, append_calls in *. simpl flat_map.
  rewrite P. parts; auto.
Qed.

(** Something that only asks the provider, then something that only
    writes to the sheet. *)
Lemma bounded_after (dr dl : World) :
  rows dr = [] -> append_calls (trace dr) = [] ->
  (List.length (provider_calls (trace dr)) <= 1)%nat ->
  provider_calls (trace dl) = [] -> bounded dl ->
  bounded (after dr dl)
  /\ provider_calls (trace (after dr dl)) = provider_calls (trace dr).
Proof.
  intros Hr Ha Hp Hq (B1 & B2 & B3 & B4 & B5).
  destruct (calls_after dr dl) as (P & A).
  unfold bounded. rewrite P, A, Hq, Ha, app_nil_r.
  unfold after; simpl. rewrite Hr. simpl. parts; auto.
Qed.

Lemma bounded_W0 : bounded W0.
Proof. unfold bounded; simpl. parts; auto. Qed.

End Bounds.

Section ComposerDeltas.

Variable env : Env.

Lemma Main_code_delta (x reply : str) (dr : World) :
  Main._ai_code env x W0 = (Returned reply, dr) ->
  rows dr = [] /\ append_calls (trace dr) = []
  /\ provider_calls (trace dr) = [Main.code_request env x].
Proof.
  rewrite Main_ai_code_run. intros E. injection E as _ <-. parts; reflexivity.
Qed.

Lemma Main_reply_delta (x reply : str) (dr : World) :
  Main._ai_reply env x W0 = (Returned reply, dr) ->
  rows dr = [] /\ append_calls (trace dr) = []
  /\ provider_calls (trace dr) = [Main.reply_request env x].
Proof.
  rewrite Main_ai_reply_run. intros E. injection E as _ <-. parts; reflexivity.
Qed.

Lemma CC_code_delta (x reply : str) (dr : World) :
  CodigoComentado._ai_code env x W0 = (Returned reply, dr) ->
  rows dr = [] /\ append_calls (trace dr) = []
  /\ provider_calls (trace dr) = [CodigoComentado.code_request env x].
Proof.
  rewrite CC_ai_code_run. intros E. injection E as _ <-. parts; reflexivity.
Qed.

Lemma CC_reply_delta (x reply : str) (dr : World) :
  CodigoComentado._ai_reply env x W0 = (Returned reply, dr) ->
  rows dr = [] /\ append_calls (trace dr) = []
  /\ provider_calls (trace dr) = [CodigoComentado.reply_request env x].
Proof.
  rewrite CC_ai_reply_run. intros E. injection E as _ <-. parts; reflexivity.
Qed.

Lemma one_call {A} (l : list A) (a : A) : l = [a] -> (List.length l <= 1)%nat.
Proof. intros ->. simpl. auto. Qed.

End ComposerDeltas.

Section PostBounds.

Variable env : Env.
Variable request : Request.
Hypothesis Hpost : is_post request = true.

Lemma empty_body_not_code :
  body_of request = [] ->
  startswith (normalized env request) (py "/code") = false.
Proof.
  intros Hb. unfold normalized. rewrite Hb. vm_compute. reflexivity.
Qed.

Lemma Main_post_bounded :
  exists reply d,
    Main.webhook env request W0 = (Returned (twiml_response reply), d)
    /\ bounded d
    /\ (in_set (normalized env request) [py "ping"; py "/ping"] = true
        \/ in_set (normalized env request)
             [py "help"; py "/help"; py "ayuda"; py "/ayuda"] = true
        \/ body_of request = [] ->
        provider_calls (trace d) = []).
Proof.
  destruct (Main_webhook_post env request Hpost) as (reply & dr & E & C).
  cbv zeta in E, C. exists reply. eexists. split; [exact E|].
  destruct (Main_log_bounded env (sender_of request) (body_of request) reply)
    as (Lp & Lb).
  assert (Fixed : dr = W0 ->
            bounded (after dr (snd (Main.log_message env (sender_of request)
                                      (body_of request) reply W0)))
            /\ provider_calls (trace (after dr (snd (Main.log_message env
                 (sender_of request) (body_of request) reply W0)))) = []).
  { intros ->. rewrite after_W0_l. auto. }
  destruct (in_set _ [py "ping"; py "/ping"]).
  { destruct C as [_ Hd]. destruct (Fixed Hd). auto. }
  destruct (in_set _ [py "help"; py "/help"; py "ayuda"; py "/ayuda"]).
  { destruct C as [_ Hd]. destruct (Fixed Hd). auto. }
  destruct (startswith _ (py "/code")) eqn:Hc.
  { destruct (Main_code_delta env _ _ _ C) as (Cr & Ca & Cp).
    destruct (bounded_after dr _ Cr Ca (one_call _ _ Cp) Lp Lb) as (B & _).
    split; [exact B|].
    intros [H|[H|H]]; try discriminate.
    rewrite (empty_body_not_code H) in Hc. discriminate. }
  destruct (truthy (body_of request)) eqn:Hb; simpl in C.
  - destruct (Main_reply_delta env _ _ _ C) as (Cr & Ca & Cp).
    destruct (bounded_after dr _ Cr Ca (one_call _ _ Cp) Lp Lb) as (B & _).
    split; [exact B|].
    intros [H|[H|H]]; try discriminate.
    rewrite H in Hb. discriminate.
  - destruct C as [_ Hd]. destruct (Fixed Hd). auto.
Qed.

Lemma CC_post_bounded :
  exists reply d,
    CodigoComentado.webhook env request W0 = (Returned (twiml_response reply), d)
    /\ bounded d
    /\ (in_set (normalized env request) [py "ping"; py "/ping"] = true
        \/ in_set (normalized env request)
             [py "help"; py "/help"; py "ayuda"; py "/ayuda"] = true
        \/ normalized env request = py "/logtest"
        \/ body_of request = [] ->
        provider_calls (trace d) = []).
Proof.
  destruct (CC_webhook_post env request Hpost) as (reply & dr & E & C).
  cbv zeta in E, C. exists reply. eexists. split; [exact E|].
  destruct (CC_log_bounded env (sender_of request) (body_of request) reply)
    as (Lp & Lb).
  destruct (CC_log_bounded env (sender_of request) (py "[/logtest]")
              (py "OK log test")) as (Tp & Tb).
  set (dl := if str_eqb (normalized env request) (py "/logtest") then W0
             else snd (CodigoComentado.log_message env (sender_of request)
                         (body_of request) reply W0)).
  assert (Dp : provider_calls (trace dl) = []).
  { unfold dl. destruct (str_eqb _ _); [reflexivity|exact Lp]. }
  assert (Db : bounded dl).
  { unfold dl. destruct (str_eqb _ _); [apply bounded_W0|exact Lb]. }
  assert (Fixed : dr = W0 ->
            bounded (after dr dl) /\ provider_calls (trace (after dr dl)) = []).
  { intros ->. rewrite after_W0_l. auto. }
  destruct (in_set _ [py "ping"; py "/ping"]).
  { destruct C as [_ Hd]. destruct (Fixed Hd). auto. }
  destruct (in_set _ [py "help"; py "/help"; py "ayuda"; py "/ayuda"]).
  { destruct C as [_ Hd]. destruct (Fixed Hd). auto. }
  destruct (str_eqb (normalized env request) (py "/logtest")) eqn:Hl.
  { destruct C as [_ ->]. unfold dl. rewrite after_W0_r. auto. }
  assert (Hnl : normalized env request <> py "/logtest")
    by (apply str_eqb_neq; exact Hl).
  destruct (startswith _ (py "/code")) eqn:Hc.
  { destruct (CC_code_delta env _ _ _ C) as (Cr & Ca & Cp).
    destruct (bounded_after dr _ Cr Ca (one_call _ _ Cp) Dp Db) as (B & _).
    split; [exact B|].
    intros [H|[H|[H|H]]]; try discriminate; try contradiction.
    rewrite (empty_body_not_code H) in Hc. discriminate. }
  destruct (truthy (body_of request)) eqn:Hb; simpl in C.
  - destruct (CC_reply_delta env _ _ _ C) as (Cr & Ca & Cp).
    destruct (bounded_after dr _ Cr Ca (one_call _ _ Cp) Dp Db) as (B & _).
    split; [exact B|].
    intros [H|[H|[H|H]]]; try discriminate; try contradiction.
    rewrite H in Hb. discriminate.
  - destruct C as [_ Hd]. destruct (Fixed Hd). auto.
Qed.

End PostBounds.

Section DebugBounds.

Variable env : Env.

(** The probe's additions: accesses, then the append when the sheet
    opened; the row lands only when the append returned. *)
Lemma debug_delta_gen (get_sheet : Env -> M Worksheet) (marker : str) :
  framed (get_sheet env) ->
  rows (snd (get_sheet env W0)) = [] ->
  forallb access_event (trace (snd (get_sheet env W0))) = true ->
  let d := snd (try_except
      (ws <- get_sheet env ;;
       ts <- time_strftime env (py "%Y-%m-%d %H:%M:%S") ;;
       append_row env ws [ts; py "debug"; marker; py "fila de test"] (py "RAW") ;;;
       ret (make_response (py "debug wrote row") 200))
      (fun e => ret (make_response (py "debug error: " ++ exc_str e) 500)) W0) in
  bounded d /\ provider_calls (trace d) = [] /\ quiet (trace d).
Proof.
  intros Hf Hr Hg d. subst d. unfold try_except, bind.
  set (r := [strftime env (py "%Y-%m-%d %H:%M:%S"); py "debug"; marker;
             py "fila de test"]).
  destruct (write_trace_calls _ (fst (get_sheet env W0)) r Hg) as (P & A & F & Q).
  destruct (get_sheet env W0) as [[ws|e] d0]; simpl in *.
  - unfold time_strftime, ret, append_row. fold r.
    destruct (append_row_answer env ws r (py "RAW")) as [[]|e];
      unfold bounded, store, emit; simpl; rewrite Hr, P; simpl;
      parts; auto; apply Q.
  - unfold ret, bounded; simpl. rewrite app_nil_r in *. rewrite Hr, P; simpl.
    parts; auto; apply Q.
Qed.

Lemma Main_get_bounded (request : Request) :
  is_post request = false ->
  exists resp d,
    Main.webhook env request W0 = (Returned resp, d)
    /\ bounded d /\ provider_calls (trace d) = [] /\ quiet (trace d).
Proof.
  intros Hm. unfold is_post in Hm. unfold Main.webhook. rewrite Hm.
  change (negb false) with true. cbv iota.
  destruct (opt_eqb _ _).
  - destruct (Main_get_sheet_access env) as (Hg & _).
    destruct (Main_get_sheet_quiet env) as (Hr & _).
    pose proof (debug_delta_gen Main._get_sheet (py "GET /?debug=1")
                  (Main_get_sheet_framed env) Hr Hg) as D.
    destruct (debug_run_gen env Main._get_sheet (py "GET /?debug=1")
                (Main_get_sheet_framed env) Hr) as (resp & d & E & _).
    cbv zeta in D. rewrite E in D. exists resp, d. split; [exact E|exact D].
  - exists (make_response (py "ok") 200), W0.
    split; [reflexivity|]. split; [apply bounded_W0|]. repeat split.
Qed.

Lemma CC_get_bounded (request : Request) :
  is_post request = false ->
  exists resp d,
    CodigoComentado.webhook env request W0 = (Returned resp, d)
    /\ bounded d /\ provider_calls (trace d) = [] /\ quiet (trace d).
Proof.
  intros Hm. unfold is_post in Hm. unfold CodigoComentado.webhook. rewrite Hm.
  change (negb false) with true. cbv iota.
  destruct (opt_eqb _ _).
  - destruct (CC_get_sheet_access env) as (Hg & _).
    destruct (CC_get_sheet_quiet env) as (Hr & _).
    pose proof (debug_delta_gen CodigoComentado._get_sheet (py "GET ?debug=1")
                  (CC_get_sheet_framed env) Hr Hg) as D.
    destruct (debug_run_gen env CodigoComentado._get_sheet (py "GET ?debug=1")
                (CC_get_sheet_framed env) Hr) as (resp & d & E & _).
    cbv zeta in D. rewrite E in D. exists resp, d. split; [exact E|exact D].
  - exists (make_response (py "ok") 200), W0.
    split; [reflexivity|]. split; [apply bounded_W0|]. repeat split.
Qed.

End DebugBounds.

(** X7.  Whatever the request and whatever the outside answers, the
    handler returns a response (it never raises), the rows the sheet
    held before are still there, in order, and the request has added at
    most one row, of four columns, through at most one append, asked with
    the [RAW] option, and has sent at most one request to the provider.
    Both files. *)
Theorem request_adds_at_most_one_row (env : Env) (request : Request) (w : World) :
  (exists resp d,
     Main.webhook env request w = (Returned resp, after w d)
     /\ rows (after w d) = rows w ++ rows d
     /\ bounded d)
  /\ (exists resp d,
     CodigoComentado.webhook env request w = (Returned resp, after w d)
     /\ rows (after w d) = rows w ++ rows d
     /\ bounded d).
Proof.
  destruct (is_post request) eqn:Hp; split.
  - destruct (Main_post_bounded env request Hp) as (reply & d & E & B & _).
    apply (run_from _ _ _ w (Main_webhook_framed env request)) in E.
    exists (twiml_response reply), d. auto.
  - destruct (CC_post_bounded env request Hp) as (reply & d & E & B & _).
    apply (run_from _ _ _ w (CC_webhook_framed env request)) in E.
    exists (twiml_response reply), d. auto.
  - destruct (Main_get_bounded env request Hp) as (resp & d & E & B & _).
    apply (run_from _ _ _ w (Main_webhook_framed env request)) in E.
    exists resp, d. auto.
  - destruct (CC_get_bounded env request Hp) as (resp & d & E & B & _).
    apply (run_from _ _ _ w (CC_webhook_framed env request)) in E.
    exists resp, d. auto.
Qed.

(** X8.  The status is 200 or 500, and 500 comes only from the debug
    probe: a POST is answered 200 whatever fails behind it, and a request
    that is not a POST is answered 500 only when it carries [debug=1].
    Both files. *)
Theorem error_status_only_from_probe (env : Env) (request : Request) (w : World) :
  (exists resp w',
     Main.webhook env request w = (Returned resp, w')
     /\ (status resp = 200
         \/ (status resp = 500
             /\ is_post request = false /\ debug_flag request = true)))
  /\ (exists resp w',
     CodigoComentado.webhook env request w = (Returned resp, w')
     /\ (status resp = 200
         \/ (status resp = 500
             /\ is_post request = false /\ debug_flag request = true))).
Proof.
  destruct (is_post request) eqn:Hp.
  - split.
    + destruct (Main_post_bounded env request Hp) as (reply & d & E & _).
      apply (run_from _ _ _ w (Main_webhook_framed env request)) in E.
      eexists; eexists. split; [exact E|left; reflexivity].
    + destruct (CC_post_bounded env request Hp) as (reply & d & E & _).
      apply (run_from _ _ _ w (CC_webhook_framed env request)) in E.
      eexists; eexists. split; [exact E|left; reflexivity].
  - destruct (debug_flag request) eqn:Hd.
    + split.
      * destruct (Main_webhook_debug env request Hp Hd) as (resp & d & E & H).
        apply (run_from _ _ _ w (Main_webhook_framed env request)) in E.
        exists resp. eexists. split; [exact E|].
        destruct (store_outcome _ _ _); destruct H as [-> _];
          [left; reflexivity|right; auto].
      * destruct (CC_webhook_debug env request Hp Hd) as (resp & d & E & H).
        apply (run_from _ _ _ w (CC_webhook_framed env request)) in E.
        exists resp. eexists. split; [exact E|].
        destruct (store_outcome _ _ _); destruct H as [-> _];
          [left; reflexivity|right; auto].
    + unfold is_post in Hp. unfold debug_flag in Hd.
      unfold Main.webhook, CodigoComentado.webhook. rewrite Hp, Hd.
      change (negb false) with true. cbv iota.
      split; eexists; eexists; (split; [reflexivity|left; reflexivity]).
Qed.

(** X10.  A request that is not a POST never enters the logger or a
    composer and never asks the provider: the probe writes its row to
    the sheet itself.  Both files. *)
Theorem non_post_bypasses_logger (env : Env) (request : Request) (w : World) :
  is_post request = false ->
  (exists resp d,
     Main.webhook env request w = (Returned resp, after w d)
     /\ logger_calls (trace d) = [] /\ code_calls (trace d) = []
     /\ reply_calls (trace d) = [] /\ provider_calls (trace d) = [])
  /\ (exists resp d,
     CodigoComentado.webhook env request w = (Returned resp, after w d)
     /\ logger_calls (trace d) = [] /\ code_calls (trace d) = []
     /\ reply_calls (trace d) = [] /\ provider_calls (trace d) = []).
Proof.
  intros Hp. split.
  - destruct (Main_get_bounded env request Hp) as (resp & d & E & _ & P & Q1 & Q2 & Q3).
    apply (run_from _ _ _ w (Main_webhook_framed env request)) in E.
    exists resp, d. auto.
  - destruct (CC_get_bounded env request Hp) as (resp & d & E & _ & P & Q1 & Q2 & Q3).
    apply (run_from _ _ _ w (CC_webhook_framed env request)) in E.
    exists resp, d. auto.
Qed.

Lemma non_post_bypasses_logger_witness :
  exists resp d,
    CodigoComentado.webhook Sample.env_up
      (Sample.get_request [(py "debug", py "1")]) W0
      = (Returned resp, after W0 d)
    /\ logger_calls (trace d) = [] /\ provider_calls (trace d) = [].
Proof.
  destruct (proj2 (non_post_bypasses_logger Sample.env_up
              (Sample.get_request [(py "debug", py "1")]) W0
              ltac:(vm_compute; reflexivity)))
    as (resp & d & E & L & _ & _ & P).
  exists resp, d. auto.
Defined.

(** X6.  The fixed replies never reach the provider: a POST whose
    normalized body is [ping], [/ping], one of the help words, or empty
    sends no completion request, and in [codigo_comentado.py] neither
    does [/logtest]. *)
Theorem fixed_replies_skip_provider (env : Env) (request : Request) (w : World) :
  is_post request = true ->
  let t := normalized env request in
  (in_set t [py "ping"; py "/ping"] = true
   \/ in_set t [py "help"; py "/help"; py "ayuda"; py "/ayuda"] = true
   \/ body_of request = [] ->
   exists reply d,
     Main.webhook env request w = (Returned (twiml_response reply), after w d)
     /\ provider_calls (trace d) = [])
  /\ (in_set t [py "ping"; py "/ping"] = true
   \/ in_set t [py "help"; py "/help"; py "ayuda"; py "/ayuda"] = true
   \/ t = py "/logtest"
   \/ body_of request = [] ->
   exists reply d,
     CodigoComentado.webhook env request w
       = (Returned (twiml_response reply), after w d)
     /\ provider_calls (trace d) = []).
Proof.
  intros Hp t. split; intros H.
  - destruct (Main_post_bounded env request Hp) as (reply & d & E & _ & P).
    apply (run_from _ _ _ w (Main_webhook_framed env request)) in E.
    exists reply, d. auto.
  - destruct (CC_post_bounded env request Hp) as (reply & d & E & _ & P).
    apply (run_from _ _ _ w (CC_webhook_framed env request)) in E.
    exists reply, d. auto.
Qed.

Lemma fixed_replies_skip_provider_witness :
  exists reply d,
    CodigoComentado.webhook Sample.env_up (Sample.post "/LOGTEST" "+1555") W0
      = (Returned (twiml_response reply), after W0 d)
    /\ provider_calls (trace d) = [].
Proof.
  apply (proj2 (fixed_replies_skip_provider Sample.env_up
                  (Sample.post "/LOGTEST" "+1555") W0
                  ltac:(vm_compute; reflexivity))).
  right; right; left. vm_compute. reflexivity.
Defined.

(* ===================================================================== *)
(** * Beyond the claims: help, free text, and what the composers read *)
(* ===================================================================== *)

Lemma help_word_is_no_other_command (t : str) :
  in_set t [py "help"; py "/help"; py "ayuda"; py "/ayuda"] = true ->
  in_set t [py "ping"; py "/ping"] = false
  /\ str_eqb t (py "/logtest") = false.
Proof.
  unfold in_set at 1. cbn [existsb]. rewrite !orb_true_iff, !str_eqb_eq.
  intros [H|[H|[H|[H|H]]]]; try discriminate; subst t;
    split; vm_compute; reflexivity.
Qed.

(** X4.  A POST whose normalized body is [help], [/help], [ayuda] or
    [/ayuda] is answered with the file's own command list, one line in
    [main.py] and four lines naming [/logtest] in
    [codigo_comentado.py]; no composer is called, and the logger is
    entered once with the sender, the trimmed body and that list. *)
Theorem help_lists_commands (env : Env) (request : Request) (w : World) :
  is_post request = true ->
  in_set (normalized env request)
    [py "help"; py "/help"; py "ayuda"; py "/ayuda"] = true ->
  let help_main := py "Comandos: /ping, /help, /code <lenguaje> <instrucción>" in
  let help_cc :=
    py "Comandos:" ++ NL
    ++ py "• /ping — prueba rápida" ++ NL
    ++ py "• /code <lenguaje> <instrucción> — responde SOLO con código" ++ NL
    ++ py "• /logtest — prueba de escritura en Sheets" ++ NL in
  (exists d,
     Main.webhook env request w = (Returned (twiml_response help_main), after w d)
     /\ logger_calls (trace d) = [(sender_of request, body_of request, help_main)]
     /\ code_calls (trace d) = [] /\ reply_calls (trace d) = [])
  /\ (exists d,
     CodigoComentado.webhook env request w
       = (Returned (twiml_response help_cc), after w d)
     /\ logger_calls (trace d) = [(sender_of request, body_of request, help_cc)]
     /\ code_calls (trace d) = [] /\ reply_calls (trace d) = []).
Proof.
  intros Hp Hh help_main help_cc.
  destruct (help_word_is_no_other_command _ Hh) as (H1 & H3).
  split.
  - destruct (Main_webhook_post env request Hp) as (reply & dr & E & C).
    cbv zeta in E, C. rewrite H1, Hh in C. destruct C as [-> ->].
    apply (run_from _ _ _ w (Main_webhook_framed env request)) in E.
    eexists. split; [exact E|].
    destruct (Main_fixed_reply env request Main.help_text) as (L & Cc & Rc & _).
    auto.
  - destruct (CC_webhook_post env request Hp) as (reply & dr & E & C).
    cbv zeta in E, C. rewrite H1, Hh in C. rewrite H3 in E. destruct C as [-> ->].
    apply (run_from _ _ _ w (CC_webhook_framed env request)) in E.
    eexists. split; [exact E|].
    destruct (CC_fixed_reply env request CodigoComentado.help_text)
      as (L & Cc & Rc & _).
    auto.
Qed.

Lemma help_lists_commands_witness :
  exists d,
    Main.webhook Sample.env_up (Sample.post " AYUDA " "+1555") W0
      = (Returned (twiml_response
           (py "Comandos: /ping, /help, /code <lenguaje> <instrucción>")),
         after W0 d)
    /\ code_calls (trace d) = [] /\ reply_calls (trace d) = [].
Proof.
  destruct (proj1 (help_lists_commands Sample.env_up (Sample.post " AYUDA " "+1555") W0
              ltac:(vm_compute; reflexivity) ltac:(vm_compute; reflexivity)))
    as (d & E & _ & C & R).
  exists d. auto.
Defined.

Lemma user_content_of_reply_request (env : Env) (body : str) :
  truthy body = true ->
  user_content (Main.reply_request env body) = [body]
  /\ user_content (CodigoComentado.reply_request env body) = [body].
Proof.
  destruct body as [|c l]; [discriminate|]. intros _.
  split; vm_compute; reflexivity.
Qed.

(** X5.  Free text: a POST whose trimmed body is not empty, whose
    normalized body is not a command and does not start with [/code],
    goes to the conversational composer, once, with the trimmed body as
    it was typed; the user message sent to the provider is that body (the
    placeholder for an empty message is never sent from the handler), the
    code composer is not called, and what the composer returns is both
    the reply in the envelope and the reply the logger is entered with,
    once, beside the sender and that body.  In [main.py] this includes
    [/logtest]. *)
Theorem free_text_goes_to_chat (env : Env) (request : Request) (w : World) :
  is_post request = true ->
  let t := normalized env request in
  let body := body_of request in
  in_set t [py "ping"; py "/ping"] = false ->
  in_set t [py "help"; py "/help"; py "ayuda"; py "/ayuda"] = false ->
  startswith t (py "/code") = false ->
  truthy body = true ->
  (exists reply d,
     Main.webhook env request w = (Returned (twiml_response reply), after w d)
     /\ fst (Main._ai_reply env body w) = Returned reply
     /\ reply_calls (trace d) = [body] /\ code_calls (trace d) = []
     /\ logger_calls (trace d) = [(sender_of request, body, reply)]
     /\ provider_calls (trace d) = [Main.reply_request env body]
     /\ map user_content (provider_calls (trace d)) = [[body]])
  /\ (str_eqb t (py "/logtest") = false ->
      exists reply d,
        CodigoComentado.webhook env request w
          = (Returned (twiml_response reply), after w d)
        /\ fst (CodigoComentado._ai_reply env body w) = Returned reply
        /\ reply_calls (trace d) = [body] /\ code_calls (trace d) = []
        /\ logger_calls (trace d) = [(sender_of request, body, reply)]
        /\ provider_calls (trace d) = [CodigoComentado.reply_request env body]
        /\ map user_content (provider_calls (trace d)) = [[body]]).
Proof.
  intros Hp t body H1 H2 H4 Hb.
  destruct (user_content_of_reply_request env body Hb) as (UM & UC).
  split; [|intros H3].
  - destruct (Main_webhook_post env request Hp) as (reply & dr & E & C).
    cbv zeta in E, C. fold t body in C. rewrite H1, H2, H4, Hb in C. simpl in C.
    apply (run_from _ _ _ w (Main_webhook_framed env request)) in E.
    exists reply. eexists. split; [exact E|].
    destruct (Main_reply_then_log env (sender_of request) body _ _ _ C)
      as (L & Cc & Rc).
    destruct (Main_reply_delta env _ _ _ C) as (_ & _ & P).
    destruct (Main_log_bounded env (sender_of request) body reply) as (Lp & _).
    destruct (calls_after dr (snd (Main.log_message env (sender_of request)
                                     body reply W0))) as (PA & _).
    pose proof (run_from _ _ _ w (Main_ai_reply_framed env body) C) as Cw.
    fold body. rewrite PA, P, Lp, Cw. simpl. rewrite UM. parts; auto.
  - destruct (CC_webhook_post env request Hp) as (reply & dr & E & C).
    cbv zeta in E, C. fold t body in C, E. rewrite H1, H2, H3, H4, Hb in C.
    rewrite H3 in E. simpl in C.
    apply (run_from _ _ _ w (CC_webhook_framed env request)) in E.
    exists reply. eexists. split; [exact E|].
    destruct (CC_reply_then_log env (sender_of request) body _ _ _ C)
      as (L & Cc & Rc).
    destruct (CC_reply_delta env _ _ _ C) as (_ & _ & P).
    destruct (CC_log_bounded env (sender_of request) body reply) as (Lp & _).
    destruct (calls_after dr (snd (CodigoComentado.log_message env
                (sender_of request) body reply W0))) as (PA & _).
    pose proof (run_from _ _ _ w (CC_ai_reply_framed env body) C) as Cw.
    rewrite PA, P, Lp, Cw. simpl. rewrite UC. parts; auto.
Qed.

Lemma free_text_goes_to_chat_witness :
  exists reply d,
    Main.webhook Sample.env_up (Sample.post " Hola, ¿qué tal? " "+1555") W0
      = (Returned (twiml_response reply), after W0 d)
    /\ reply_calls (trace d) = [py "Hola, ¿qué tal?"]
    /\ code_calls (trace d) = [].
Proof.
  destruct (proj1 (free_text_goes_to_chat Sample.env_up
              (Sample.post " Hola, ¿qué tal? " "+1555") W0
              ltac:(vm_compute; reflexivity) ltac:(vm_compute; reflexivity)
              ltac:(vm_compute; reflexivity) ltac:(vm_compute; reflexivity)
              ltac:(vm_compute; reflexivity)))
    as (reply & d & E & _ & R & C & _).
  exists reply, d. split; [exact E|]. split; [|exact C].
  rewrite R. vm_compute. reflexivity.
Defined.

(** X9.  What a composer makes of a completion.  It reads the first
    choice only, and returns its content with the whitespace at both
    ends removed.  A first choice without content gives the empty reply
    in both composers of [codigo_comentado.py] and the text
    ["No pude generar respuesta."] in the conversational composer of
    [main.py]; the code composer of [main.py] has no such guard and
    answers with its error text.  A completion with no choice at all
    gives the fallback, in all four composers. *)
Theorem composer_reads_first_choice (env : Env) (text : str) (w : World)
    (c : option str) (others : list (option str)) :
  (chat_completions_create env (CodigoComentado.reply_request env text)
     = Returned {| choices := c :: others |} ->
   fst (CodigoComentado._ai_reply env text w)
     = Returned (strip (match c with Some s => s | None => [] end)))
  /\ (chat_completions_create env (CodigoComentado.code_request env text)
     = Returned {| choices := c :: others |} ->
   fst (CodigoComentado._ai_code env text w)
     = Returned (strip (match c with Some s => s | None => [] end)))
  /\ (chat_completions_create env (Main.reply_request env text)
     = Returned {| choices := c :: others |} ->
   fst (Main._ai_reply env text w)
     = Returned (strip (match c with
                        | Some (x :: s) => x :: s
                        | _ => py "No pude generar respuesta."
                        end)))
  /\ (chat_completions_create env (Main.code_request env text)
     = Returned {| choices := c :: others |} ->
   fst (Main._ai_code env text w)
     = Returned (match c with
                 | Some s => strip s
                 | None => py "Ups, no pude generar el código: "
                           ++ py "'NoneType' object has no attribute 'strip'"
                 end))
  /\ (chat_completions_create env (CodigoComentado.reply_request env text)
     = Returned {| choices := [] |} ->
   fst (CodigoComentado._ai_reply env text w)
     = Returned CodigoComentado.reply_fallback)
  /\ (chat_completions_create env (Main.reply_request env text)
     = Returned {| choices := [] |} ->
   fst (Main._ai_reply env text w)
     = Returned (py "Ups, hubo un error consultando a IA: "
                 ++ py "list index out of range"))
  /\ (chat_completions_create env (CodigoComentado.code_request env text)
     = Returned {| choices := [] |} ->
   fst (CodigoComentado._ai_code env text w)
     = Returned CodigoComentado.code_fallback)
  /\ (chat_completions_create env (Main.code_request env text)
     = Returned {| choices := [] |} ->
   fst (Main._ai_code env text w)
     = Returned (py "Ups, no pude generar el código: "
                 ++ py "list index out of range")).
Proof.
  pose proof (run_from _ _ _ w (CC_ai_reply_framed env text) (CC_ai_reply_run env text)) as R1.
  pose proof (run_from _ _ _ w (CC_ai_code_framed env text) (CC_ai_code_run env text)) as R2.
  pose proof (run_from _ _ _ w (Main_ai_reply_framed env text) (Main_ai_reply_run env text)) as R3.
  pose proof (run_from _ _ _ w (Main_ai_code_framed env text) (Main_ai_code_run env text)) as R4.
  parts; intros H.
  - rewrite R1, H. simpl. destruct c as [[|x s]|]; reflexivity.
  - rewrite R2, H. simpl. destruct c as [[|x s]|]; reflexivity.
  - rewrite R3, H. simpl. destruct c as [[|x s]|]; reflexivity.
  - rewrite R4, H. simpl. destruct c; reflexivity.
  - rewrite R1, H. reflexivity.
  - rewrite R3, H. reflexivity.
  - rewrite R2, H. reflexivity.
  - rewrite R4, H. reflexivity.
Qed.

Lemma composer_reads_first_choice_witness :
  fst (CodigoComentado._ai_reply Sample.env_up (py "hola") W0)
  = Returned (strip (py " Claro. ")).
Proof.
  apply (proj1 (composer_reads_first_choice Sample.env_up (py "hola") W0
                  (Some (py " Claro. ")) [])).
  reflexivity.
Defined.

(** X11.  For a body of ASCII characters whose normalized form starts
    with [/code], the five characters the router drops are the command
    word itself, in whatever case it was typed: lowercasing moves no
    character, so the slice taken on the original text falls where the
    match was made on the lowercase text. *)
Theorem slice_drops_the_command_word (env : Env) (request : Request) :
  is_ascii (body_of request) = true ->
  startswith (normalized env request) (py "/code") = true ->
  exists word,
    body_of request = word ++ skipn 5 (body_of request)
    /\ List.length word = 5%nat
    /\ map ascii_lower word = py "/code".
Proof.
  intros Ha Hs. apply (ascii_code_prefix (unicode env)); assumption.
Qed.

Lemma slice_drops_the_command_word_witness :
  exists word,
    body_of (Sample.post " /CoDe js: suma " "+1555")
      = word ++ skipn 5 (body_of (Sample.post " /CoDe js: suma " "+1555"))
    /\ List.length word = 5%nat
    /\ map ascii_lower word = py "/code".
Proof.
  apply (slice_drops_the_command_word Sample.env_up);
    vm_compute; reflexivity.
Defined.

(* ===================================================================== *)
(** * Beyond the claims: one attempt at the sheet per request *)
(* ===================================================================== *)

Section OneAttempt.

Variable env : Env.
Variable B : Type.
Variable g : Event -> list B.
Hypothesis g_log : forall s b r, g (EnterLogMessage s b r) = [].
Hypothesis g_code : forall x, g (EnterAiCode x) = [].
Hypothesis g_reply : forall x, g (EnterAiReply x) = [].
Hypothesis g_chat : forall r, g (CallChat r) = [].
Hypothesis g_append : forall ws r o, g (CallAppendRow ws r o) = [].

Lemma g_after (w d : World) :
  flat_map g (trace (after w d)) = flat_map g (trace w) ++ flat_map g (trace d).
Proof. unfold after; simpl. apply flat_map_app. Qed.

Lemma g_write (tg : list Event) (o : outcome Worksheet) (r : row) :
  flat_map g (tg ++ match o with
                    | Returned ws => [CallAppendRow ws r (py "RAW")]
                    | Raised _ => []
                    end) = flat_map g tg.
Proof.
  rewrite flat_map_app. destruct o; simpl; rewrite ?g_append; now rewrite !app_nil_r.
Qed.

Lemma g_Main_log (s b r : str) :
  flat_map g (trace (snd (Main.log_message env s b r W0)))
  = flat_map g (trace (snd (Main._get_sheet env W0))).
Proof. rewrite Main_log_trace. simpl. rewrite g_log. apply g_write. Qed.

Lemma g_CC_log (s b r : str) :
  flat_map g (trace (snd (CodigoComentado.log_message env s b r W0)))
  = flat_map g (trace (snd (CodigoComentado._get_sheet env W0))).
Proof. rewrite CC_log_trace. simpl. rewrite g_log. apply g_write. Qed.

Lemma g_Main_code (x reply : str) (dr : World) :
  Main._ai_code env x W0 = (Returned reply, dr) -> flat_map g (trace dr) = [].
Proof.
  rewrite Main_ai_code_run. intros E. injection E as _ <-. simpl.
  now rewrite g_code, g_chat.
Qed.

Lemma g_Main_reply (x reply : str) (dr : World) :
  Main._ai_reply env x W0 = (Returned reply, dr) -> flat_map g (trace dr) = [].
Proof.
  rewrite Main_ai_reply_run. intros E. injection E as _ <-. simpl.
  now rewrite g_reply, g_chat.
Qed.

Lemma g_CC_code (x reply : str) (dr : World) :
  CodigoComentado._ai_code env x W0 = (Returned reply, dr) ->
  flat_map g (trace dr) = [].
Proof.
  rewrite CC_ai_code_run. intros E. injection E as _ <-. simpl.
  now rewrite g_code, g_chat.
Qed.

Lemma g_CC_reply (x reply : str) (dr : World) :
  CodigoComentado._ai_reply env x W0 = (Returned reply, dr) ->
  flat_map g (trace dr) = [].
Proof.
  rewrite CC_ai_reply_run. intros E. injection E as _ <-. simpl.
  now rewrite g_reply, g_chat.
Qed.

(** The probe's trace. *)
Lemma g_debug (get_sheet : Env -> M Worksheet) (marker : str) :
  flat_map g (trace (snd (try_except
      (ws <- get_sheet env ;;
       ts <- time_strftime env (py "%Y-%m-%d %H:%M:%S") ;;
       append_row env ws [ts; py "debug"; marker; py "fila de test"] (py "RAW") ;;;
       ret (make_response (py "debug wrote row") 200))
      (fun e => ret (make_response (py "debug error: " ++ exc_str e) 500)) W0)))
  = flat_map g (trace (snd (get_sheet env W0))).
Proof.
  unfold try_except, bind.
  destruct (get_sheet env W0) as [[ws|e] d0]; simpl.
  - unfold time_strftime, ret, append_row.
    destruct (append_row_answer env ws _ (py "RAW")) as [[]|e];
      unfold store, emit; simpl; rewrite flat_map_app; simpl;
      now rewrite g_append, !app_nil_r.
  - reflexivity.
Qed.

(** What a request asks of the sheet side, apart from the append, is
    what one opening of the sheet asks, or nothing. *)
Lemma g_Main_webhook (request : Request) :
  let d := snd (Main.webhook env request W0) in
  flat_map g (trace d) = flat_map g (trace (snd (Main._get_sheet env W0)))
  \/ flat_map g (trace d) = [].
Proof.
  intros d. subst d. destruct (is_post request) eqn:Hp.
  - destruct (Main_webhook_post env request Hp) as (reply & dr & E & C).
    cbv zeta in E, C. rewrite E. simpl snd. rewrite g_after, g_Main_log.
    left.
    assert (Hdr : flat_map g (trace dr) = []).
    { destruct (in_set _ [py "ping"; py "/ping"]); [destruct C as [_ ->]; reflexivity|].
      destruct (in_set _ [py "help"; py "/help"; py "ayuda"; py "/ayuda"]);
        [destruct C as [_ ->]; reflexivity|].
      destruct (startswith _ (py "/code")); [eapply g_Main_code; exact C|].
      destruct (negb (truthy (body_of request)));
        [destruct C as [_ ->]; reflexivity|eapply g_Main_reply; exact C]. }
    now rewrite Hdr.
  - unfold is_post in Hp. unfold Main.webhook. rewrite Hp.
    change (negb false) with true. cbv iota.
    destruct (opt_eqb _ _).
    + left. apply g_debug.
    + right. reflexivity.
Qed.

Lemma g_CC_webhook (request : Request) :
  let d := snd (CodigoComentado.webhook env request W0) in
  flat_map g (trace d)
    = flat_map g (trace (snd (CodigoComentado._get_sheet env W0)))
  \/ flat_map g (trace d) = [].
Proof.
  intros d. subst d. destruct (is_post request) eqn:Hp.
  - destruct (CC_webhook_post env request Hp) as (reply & dr & E & C).
    cbv zeta in E, C. rewrite E. simpl snd. rewrite g_after.
    left.
    destruct (in_set _ [py "ping"; py "/ping"]) eqn:H1.
    { assert (Hlt : str_eqb (normalized env request) (py "/logtest") = false).
      { apply str_eqb_neq. intros Heq. rewrite Heq in H1. vm_compute in H1. discriminate. }
      rewrite Hlt. destruct C as [_ ->]. simpl. apply g_CC_log. }
    destruct (in_set _ [py "help"; py "/help"; py "ayuda"; py "/ayuda"]) eqn:H2.
    { assert (Hlt : str_eqb (normalized env request) (py "/logtest") = false).
      { apply str_eqb_neq. intros Heq. rewrite Heq in H2. vm_compute in H2. discriminate. }
      rewrite Hlt. destruct C as [_ ->]. simpl. apply g_CC_log. }
    destruct (str_eqb _ (py "/logtest")).
    { destruct C as [_ ->]. simpl. rewrite app_nil_r. apply g_CC_log. }
    destruct (startswith _ (py "/code")).
    { rewrite (g_CC_code _ _ _ C). simpl. apply g_CC_log. }
    destruct (negb (truthy (body_of request))).
    { destruct C as [_ ->]. simpl. apply g_CC_log. }
    rewrite (g_CC_reply _ _ _ C). simpl. apply g_CC_log.
  - unfold is_post in Hp. unfold CodigoComentado.webhook. rewrite Hp.
    change (negb false) with true. cbv iota.
    destruct (opt_eqb _ _).
    + left. apply g_debug.
    + right. reflexivity.
Qed.

End OneAttempt.

Lemma Main_get_sheet_keyfile (env : Env) :
  (List.length (keyfile_reads (trace (snd (Main._get_sheet env W0)))) <= 1)%nat.
Proof.
  unfold Main._get_sheet, Main._get_google_creds. run.
  answers; simpl; auto.
Qed.

Lemma CC_get_sheet_keyfile (env : Env) :
  (List.length (keyfile_reads (trace (snd (CodigoComentado._get_sheet env W0)))) <= 1)%nat.
Proof.
  unfold CodigoComentado._get_sheet, CodigoComentado._get_google_creds. run.
  answers; simpl; auto.
Qed.

(** X13.  There is no retry and no second attempt: whatever the request,
    the handler asks for the ambient identity at most once, reads a
    keyfile at most once and opens the spreadsheet at most once.  Both
    files. *)
Theorem one_sheet_attempt_per_request (env : Env) (request : Request) (w : World) :
  (exists o d,
     Main.webhook env request w = (o, after w d)
     /\ (List.length (adc_calls (trace d)) <= 1)%nat
     /\ (List.length (keyfile_reads (trace d)) <= 1)%nat
     /\ (List.length (open_calls (trace d)) <= 1)%nat)
  /\ (exists o d,
     CodigoComentado.webhook env request w = (o, after w d)
     /\ (List.length (adc_calls (trace d)) <= 1)%nat
     /\ (List.length (keyfile_reads (trace d)) <= 1)%nat
     /\ (List.length (open_calls (trace d)) <= 1)%nat).
Proof.
  split.
  - exists (fst (Main.webhook env request W0)), (snd (Main.webhook env request W0)).
    split; [apply Main_webhook_framed|].
    destruct (Main_get_sheet_access env) as (_ & Ha & Ho).
    pose proof (Main_get_sheet_keyfile env) as Hk.
    parts.
    + destruct (g_Main_webhook env _
                  (fun ev => match ev with CallAuthDefault sc => [sc] | _ => [] end)
                  (fun _ _ _ => eq_refl) (fun _ => eq_refl) (fun _ => eq_refl)
                  (fun _ => eq_refl) (fun _ _ _ => eq_refl) request) as [E | E];
        unfold adc_calls in *; rewrite E; simpl; auto.
    + destruct (g_Main_webhook env _
                  (fun ev => match ev with
                             | CallServiceAccountFile p _ => [p]
                             | _ => []
                             end)
                  (fun _ _ _ => eq_refl) (fun _ => eq_refl) (fun _ => eq_refl)
                  (fun _ => eq_refl) (fun _ _ _ => eq_refl) request) as [E | E];
        unfold keyfile_reads in *; rewrite E; simpl; auto.
    + destruct (g_Main_webhook env _
                  (fun ev => match ev with CallOpenByKey k => [k] | _ => [] end)
                  (fun _ _ _ => eq_refl) (fun _ => eq_refl) (fun _ => eq_refl)
                  (fun _ => eq_refl) (fun _ _ _ => eq_refl) request) as [E | E];
        unfold open_calls in *; rewrite E; simpl; auto.
  - exists (fst (CodigoComentado.webhook env request W0)),
           (snd (CodigoComentado.webhook env request W0)).
    split; [apply CC_webhook_framed|].
    destruct (CC_get_sheet_access env) as (_ & Ha & Ho).
    pose proof (CC_get_sheet_keyfile env) as Hk.
    parts.
    + destruct (g_CC_webhook env _
                  (fun ev => match ev with CallAuthDefault sc => [sc] | _ => [] end)
                  (fun _ _ _ => eq_refl) (fun _ => eq_refl) (fun _ => eq_refl)
                  (fun _ => eq_refl) (fun _ _ _ => eq_refl) request) as [E | E];
        unfold adc_calls in *; rewrite E; simpl; auto.
    + destruct (g_CC_webhook env _
                  (fun ev => match ev with
                             | CallServiceAccountFile p _ => [p]
                             | _ => []
                             end)
                  (fun _ _ _ => eq_refl) (fun _ => eq_refl) (fun _ => eq_refl)
                  (fun _ => eq_refl) (fun _ _ _ => eq_refl) request) as [E | E];
        unfold keyfile_reads in *; rewrite E; simpl; auto.
    + destruct (g_CC_webhook env _
                  (fun ev => match ev with CallOpenByKey k => [k] | _ => [] end)
                  (fun _ _ _ => eq_refl) (fun _ => eq_refl) (fun _ => eq_refl)
                  (fun _ => eq_refl) (fun _ _ _ => eq_refl) request) as [E | E];
        unfold open_calls in *; rewrite E; simpl; auto.
Qed.

(* ===================================================================== *)
(** * Beyond the claims: the local test script *)
(* ===================================================================== *)

Lemma TestSheet_script_framed (env : Env) : framed (TestSheet.script env).
Proof. unfold TestSheet.script. frame. Qed.

(** X12.  [test_sheet.py] goes straight to the keyfile: it never asks
    for the ambient identity, and it loads [service_account.json] by its
    bare name with the spreadsheets scope alone.  It catches nothing.  It
    ends normally exactly when every step returned: the keyfile gave a
    credential, the client built from it opened the spreadsheet named by
    [SHEET_ID] (["TU_ID"] when unset), that spreadsheet gave its first
    worksheet, and the row [timestamp, "local-test", "hola", "respuesta"]
    was appended to that worksheet with the [RAW] option; these are then
    the only calls made and that row the only one added.  When a step
    fails, its exception is the script's and no row is appended. *)
Theorem test_script_writes_or_raises (env : Env) (w : World) :
  let key := py "service_account.json" in
  let scopes := [py "https://www.googleapis.com/auth/spreadsheets"] in
  let id := getenv env (py "SHEET_ID") (py "TU_ID") in
  let r := [ strftime env (py "%Y-%m-%d %H:%M:%S");
             py "local-test"; py "hola"; py "respuesta" ] in
  exists o d,
    TestSheet.script env w = (o, after w d)
    /\ adc_calls (trace d) = []
    /\ (exists rest, trace d = CallServiceAccountFile key scopes :: rest)
    /\ match o with
       | Returned _ =>
         exists creds cl book ws,
           from_service_account_file env key scopes = Returned creds
           /\ gspread_authorize env creds = Returned cl
           /\ open_by_key env cl id = Returned book
           /\ sheet1 book = Returned ws
           /\ append_row_answer env ws r (py "RAW") = Returned tt
           /\ trace d = [ CallServiceAccountFile key scopes;
                          CallOpenByKey id;
                          CallAppendRow ws r (py "RAW") ]
           /\ rows d = [(ws, r)]
       | Raised e =>
         rows d = []
         /\ (from_service_account_file env key scopes = Raised e
             \/ exists creds,
                  from_service_account_file env key scopes = Returned creds
                  /\ (gspread_authorize env creds = Raised e
                      \/ exists cl,
                           gspread_authorize env creds = Returned cl
                           /\ (open_by_key env cl id = Raised e
                               \/ exists book,
                                    open_by_key env cl id = Returned book
                                    /\ (sheet1 book = Raised e
                                        \/ exists ws,
                                             sheet1 book = Returned ws
                                             /\ append_row_answer env ws r (py "RAW")
                                                = Raised e))))
       end.
Proof.
  intros key scopes id r.
  exists (fst (TestSheet.script env W0)), (snd (TestSheet.script env W0)).
  split; [apply TestSheet_script_framed|].
  unfold TestSheet.script. run.
  change TestSheet.CREDS with key.
  change TestSheet.scopes with scopes.
  change (TestSheet.SHEET_ID env) with id.
  change [strftime env (py "%Y-%m-%d %H:%M:%S"); py "local-test"; py "hola";
          py "respuesta"] with r.
  destruct (from_service_account_file env key scopes) as [c|e] eqn:Hk; simpl;
    [|parts; [reflexivity|eexists; reflexivity|reflexivity|left; reflexivity]].
  destruct (gspread_authorize env c) as [cl|e] eqn:Ha; simpl;
    [|parts; [reflexivity|eexists; reflexivity|reflexivity|
              right; exists c; split; [reflexivity|left; exact Ha]]].
  destruct (open_by_key env cl id) as [book|e] eqn:Ho; simpl;
    [|parts; [reflexivity|eexists; reflexivity|reflexivity|
              right; exists c; split; [reflexivity|];
              right; exists cl; split; [exact Ha|left; exact Ho]]].
  destruct (sheet1 book) as [ws|e] eqn:Hs; simpl;
    [|parts; [reflexivity|eexists; reflexivity|reflexivity|
              right; exists c; split; [reflexivity|];
              right; exists cl; split; [exact Ha|];
              right; exists book; split; [exact Ho|left; exact Hs]]].
  destruct (append_row_answer env ws r (py "RAW")) as [[]|e] eqn:Hw; simpl;
    [|parts; [reflexivity|eexists; reflexivity|reflexivity|
              right; exists c; split; [reflexivity|];
              right; exists cl; split; [exact Ha|];
              right; exists book; split; [exact Ho|];
              right; exists ws; split; [exact Hs|exact Hw]]].
  parts; [reflexivity|eexists; reflexivity|].
  exists c, cl, book, ws. parts; auto.
Qed.
